(** * jupyter_kernel_executor: the websocket execution handler

    A shallow embedding of [ExecuteCellWebSocketHandler]
    (src/jupyter_kernel_executor/handlers.py): the class-level ledger
    [executing_cell], the notebook write-back [write_output], the code
    lookup [read_code_from_ipynb] and the request handler [mimic_post],
    then the status query [mimic_get], [executing_document], the message
    dispatch [on_message] and the route of [setup_handlers].

    Python dictionaries keyed by strings are finite maps, the lists they
    hold are lists whose elements are updated in place, exceptions are an
    explicit outcome, and every call into a collaborator (kernel client,
    contents manager, file-id manager, websocket) is recorded in a trace. *)

From stdpp Require Import gmap strings list fin_maps.
From Stdlib Require Import ZArith Ascii.

Local Open Scope string_scope.
Local Open Scope Z_scope.

(** ** Data *)

(** An element of [result['outputs']]: the handler only reads [.text]. *)
Record output := Output { text : string }.

(** What [client.execute] returns and [client.get_result] snapshots. *)
Record result := Result {
  outputs : list output;
  execution_count : option Z
}.

(** One dictionary of the ledger, as built by [get_record]. *)
Record record := Rec {
  rec_document_id : option string;
  rec_cell_id : option string;
  rec_output : string;
  rec_execution_count : option Z
}.

(** A cell of [nb['cells']].  [c_outputs] is [None] for a cell without the
    key ['outputs'] (markdown and raw cells have none); [c_execution_count]
    is [None] for a null or absent count. *)
Record cell := Cell {
  c_id : string;
  c_source : string;
  c_outputs : option (list output);
  c_execution_count : option Z
}.

(** The payload of a [post] envelope:
    [{kernel_id, path?, cell_id?, not_write?, block?, code?}]. *)
Record model := Model {
  kernel_id : string;
  path : option string;
  cell_id : option string;
  not_write : bool;
  block : option bool;
  code : option string
}.

#[global] Instance output_eq_dec : EqDecision output.
Proof. solve_decision. Defined.
#[global] Instance result_eq_dec : EqDecision result.
Proof. solve_decision. Defined.
#[global] Instance record_eq_dec : EqDecision record.
Proof. solve_decision. Defined.
#[global] Instance cell_eq_dec : EqDecision cell.
Proof. solve_decision. Defined.
#[global] Instance model_eq_dec : EqDecision model.
Proof. solve_decision. Defined.

(** Exceptions the handler raises or lets through. *)
Inductive exn :=
| KeyError (key : string)
| HTTPError (status : Z) (reason : string)
| AssertionError
| KernelFailure (reason : string).

(** Calls into collaborators, in the order they happen. *)
Inductive event :=
| Dispatch (kernel : string) (src : string)   (* client.execute(code) *)
| Save (file : string) (cells : list cell)     (* cm.save(model, path) *)
| FileIdSave (file : string)                   (* file_id_manager.save(path) *)
| WriteMessage (cells : list cell)             (* write_message({"meta": "get", ...}) *)
| LogException (e : exn).                      (* log.exception(e) in write_callback *)

(** What a response dictionary can hold under a key of its payload. *)
Inductive value :=
| VModel (m : model)
| VResult (r : result)
| VRecord (r : record).

(** [{"meta": ..., "payload": {...}}]. *)
Record response := Response {
  meta : string;
  payload : list (string * value)
}.

(** The handler's world: the class attribute [executing_cell], the kernels
    the kernel manager knows, the notebooks of the contents manager, whether
    this handler is registered with the file watcher, and the trace. *)
Record state := State {
  executing_cell : gmap string (list record);
  kernels : gset string;
  contents : gmap string (list cell);
  watching : bool;
  trace : list event
}.

Definition set_executing_cell (f : gmap string (list record) → gmap string (list record))
    (s : state) : state :=
  State (f (executing_cell s)) (kernels s) (contents s) (watching s) (trace s).

Definition set_contents (f : gmap string (list cell) → gmap string (list cell))
    (s : state) : state :=
  State (executing_cell s) (kernels s) (f (contents s)) (watching s) (trace s).

Definition set_watching (b : bool) (s : state) : state :=
  State (executing_cell s) (kernels s) (contents s) b (trace s).

Definition emit (e : event) (s : state) : state :=
  State (executing_cell s) (kernels s) (contents s) (watching s) (trace s ++ [e])%list.

(** ** Python truthiness *)

(** [not x] for an optional string: [None] and [''] are falsy. *)
Definition truthy (o : option string) : bool :=
  match o with
  | Some s => negb (String.eqb s "")
  | None => false
  end.

(** [if result['execution_count']]: [None] and [0] are falsy. *)
Definition truthy_count (o : option Z) : bool :=
  match o with
  | Some n => negb (n =? 0)
  | None => false
  end.

(** [if model.get('block')]. *)
Definition truthy_flag (o : option bool) : bool :=
  match o with
  | Some b => b
  | None => false
  end.

(** ** Computations that mutate the state and may raise *)

Inductive outcome (A : Type) :=
| Ok (a : A)
| Raise (e : exn).
Arguments Ok {A} a.
Arguments Raise {A} e.

Definition M (A : Type) : Type := state → state * outcome A.

Definition ret {A} (a : A) : M A := λ s, (s, Ok a).

Definition raise {A} (e : exn) : M A := λ s, (s, Raise e).

Definition bind {A B} (m : M A) (k : A → M B) : M B :=
  λ s, match m s with
       | (s', Ok a) => k a s'
       | (s', Raise e) => (s', Raise e)
       end.

Notation "'let*' x := m 'in' k" := (bind m (λ x, k))
  (at level 10, x name, m at level 100, k at level 200).
Notation "m ;;; k" := (bind m (λ _, k))
  (at level 100, k at level 200, right associativity).

Definition get_state : M state := λ s, (s, Ok s).

Definition modify (f : state → state) : M unit := λ s, (f s, Ok tt).

(** [try: body finally: fin].  The final block runs on both exits; the
    body's outcome is kept unless the final block itself raises. *)
Definition try_finally {A} (body : M A) (fin : M unit) : M A :=
  λ s, match body s with
       | (s', o) =>
           match fin s' with
           | (s'', Ok _) => (s'', o)
           | (s'', Raise e) => (s'', Raise e)
           end
       end.

(** [try: body except Exception as e: handler(e)]. *)
Definition try_except (body : M unit) (handler : exn → M unit) : M unit :=
  λ s, match body s with
       | (s', Ok _) => (s', Ok tt)
       | (s', Raise e) => handler e s'
       end.

(** ** The ledger *)

(** [get_record]: a fresh dictionary with empty output and no count. *)
Definition get_record (document_id cell_id : option string) : record :=
  Rec document_id cell_id "" None.

(** [self.executing_cell.get(kernel_id, [])]. *)
Definition records_of (cells : gmap string (list record)) (k : string) : list record :=
  default [] (cells !! k).

(** [is_executing]: membership of the fresh record, by dictionary equality. *)
Definition is_executing (cells : gmap string (list record))
    (k : string) (document_id cell_id : option string) : bool :=
  bool_decide (get_record document_id cell_id ∈ records_of cells k).

(** [''.join([output.text for output in result['outputs']])]. *)
Definition join_text (outs : list output) : string :=
  String.concat "" (text <$> outs).

(** The body of the loop of [update_execute_result] for one record. *)
Definition update_record (r : result) (cid : option string) (finished : bool)
    (rec : record) : record :=
  if decide (rec_cell_id rec = cid)
  then Rec (rec_document_id rec) (rec_cell_id rec) (join_text (outputs r))
           (if finished then execution_count r else None)
  else rec.

(** [update_execute_result]: indexes the ledger with [[kernel_id]], so a
    kernel without an entry raises [KeyError]. *)
Definition update_execute_result (r : result) (k : string) (cid : option string)
    (finished : bool) : M unit :=
  λ s, match executing_cell s !! k with
       | None => (s, Raise (KeyError k))
       | Some recs =>
           (set_executing_cell (insert k (update_record r cid finished <$> recs)) s, Ok tt)
       end.

(** [list.remove(x)]: drops the first element equal to [x]. *)
Fixpoint remove_first (x : record) (l : list record) : list record :=
  match l with
  | [] => []
  | y :: l' => if decide (y = x) then l' else y :: remove_first x l'
  end.

(** Modelled from the spec: [FileWatcher] (file_watcher.py is not among the
    sources) keeps the set of connections interested in file changes;
    [add(self)] and [remove(self)] enter and leave this handler, which the
    field [watching] records. *)
Definition watcher_add : M unit := modify (set_watching true).
Definition watcher_remove : M unit := modify (set_watching false).

(** [pre_execute]. *)
Definition pre_execute (k : string) (document_id cell_id : option string) : M unit :=
  if truthy document_id && truthy cell_id
  then modify (set_executing_cell
                 (λ cells, <[k := (records_of cells k ++ [get_record document_id cell_id])%list]> cells)) ;;;
       watcher_add
  else ret tt.

(** [post_execute]. *)
Definition post_execute (k : string) (document_id cell_id : option string) : M unit :=
  if truthy document_id && truthy cell_id
  then watcher_remove ;;;
       modify (set_executing_cell
                 (λ cells,
                    let records := records_of cells k in
                    let record := get_record document_id cell_id in
                    if bool_decide (record ∈ records)
                    then <[k := remove_first record records]> cells
                    else cells))
  else ret tt.

(** ** Collaborators *)

(** How one [client.execute(code)] goes, seen from the handler: the
    snapshots [client.get_result()] yields each time the client calls the
    registered callbacks while the kernel streams, then the final result or
    the exception the call raises. *)
Record run := Run {
  partials : list result;
  final : outcome result
}.

(** [cm.get(path, content=True, type='notebook')]['content']['cells']]; the
    contents manager answers 404 for a path it does not hold. *)
Definition cm_get (file : string) : M (list cell) :=
  λ s, match contents s !! file with
       | Some cells => (s, Ok cells)
       | None => (s, Raise (HTTPError 404 ("No such file or directory: " ++ file)))
       end.

(** [cm.save(model, path)]. *)
Definition cm_save (file : string) (cells : list cell) : M unit :=
  modify (λ s, emit (Save file cells) (set_contents (insert file cells) s)).

Section Handler.

(** Modelled from the spec: [FileIDWrapper] (fileid.py is not among the
    sources) is the identity resolver, mapping a path to a stable document
    identity ([index], no path giving no identity) and an identity back to
    its current path ([get_path]). *)
Variable index : option string → option string.
Variable get_path : option string → string.

(** ** Reading the code of a cell *)

(** The [for cell in nb['cells']] search of [read_code_from_ipynb]. *)
Fixpoint find_cell (cid : option string) (cells : list cell) : option cell :=
  match cells with
  | [] => None
  | c :: cells' => if decide (Some (c_id c) = cid) then Some c else find_cell cid cells'
  end.

(** [read_code_from_ipynb]. *)
Definition read_code_from_ipynb (document_id cid : option string) : M (option string) :=
  if negb (truthy document_id) || negb (truthy cid)
  then ret None
  else
    let file := get_path document_id in
    let* cells := cm_get file in
    match find_cell cid cells with
    | Some c => ret (Some (c_source c))
    | None =>
        raise (HTTPError 404 ("cell " ++ default "" cid ++ " not found in " ++ file))
    end.

(** ** Writing a result into the notebook *)

(** The loop of [write_output]: the first cell with the given id gets the
    new outputs when they differ and the new count when it is truthy; the
    flag is the local [updated].  Reading [cell["outputs"]] of a cell
    without that key raises [KeyError]. *)
Fixpoint apply_result (cid : option string) (r : result) (cells : list cell)
    : outcome (list cell * bool) :=
  match cells with
  | [] => Ok ([], false)
  | c :: cells' =>
      if decide (Some (c_id c) = cid)
      then
        match c_outputs c with
        | None => Raise (KeyError "outputs")
        | Some stored =>
            let differs := bool_decide (outputs r ≠ stored) in
            let counted := truthy_count (execution_count r) in
            Ok (Cell (c_id c) (c_source c)
                     (Some (if differs then outputs r else stored))
                     (if counted then execution_count r else c_execution_count c)
                  :: cells',
                differs || counted)
        end
      else
        match apply_result cid r cells' with
        | Ok (cells'', updated) => Ok (c :: cells'', updated)
        | Raise e => Raise e
        end
  end.

(** [write_output]; the value returned is the local [updated], which is
    what decides whether the notebook is saved. *)
Definition write_output (document_id cid : option string) (r : result) : M bool :=
  if negb (truthy document_id) || negb (truthy cid)
  then ret false
  else
    let file := get_path document_id in
    let* cells := cm_get file in
    match apply_result cid r cells with
    | Raise e => raise e
    | Ok (cells', updated) =>
        if updated
        then cm_save file cells' ;;;
             modify (emit (FileIdSave file)) ;;;
             modify (emit (WriteMessage cells')) ;;;
             ret true
        else ret false
    end.

(** ** Executing *)

(** The closure [write_callback] of [mimic_post], called with the snapshot
    [client.get_result()] returned. *)
Definition write_callback (k : string) (document_id cid : option string)
    (r : result) : M unit :=
  try_except
    (update_execute_result r k cid false ;;;
     let* _ := write_output document_id cid r in
     ret tt)
    (λ e, modify (emit (LogException e))).

Fixpoint run_callbacks (callback : result → M unit) (snapshots : list result) : M unit :=
  match snapshots with
  | [] => ret tt
  | r :: snapshots' => callback r ;;; run_callbacks callback snapshots'
  end.

(** [client.execute(code)] for a client with or without a registered
    callback. *)
Definition client_execute (callback : option (result → M unit)) (kr : run)
    (k src : string) : M result :=
  modify (emit (Dispatch k src)) ;;;
  match callback with
  | Some cb => run_callbacks cb (partials kr)
  | None => ret tt
  end ;;;
  λ s, (s, final kr).

(** [execute]. *)
Definition execute (callback : option (result → M unit)) (kr : run)
    (k src : string) (document_id cid : option string) : M result :=
  pre_execute k document_id cid ;;;
  let* r := try_finally (client_execute callback kr k src)
                        (post_execute k document_id cid) in
  update_execute_result r k cid true ;;;
  ret r.

(** ** The request handler *)

(** Lines 105 to 113 of [mimic_post]: the execution mode. *)
Definition block_mode (m : model) (document_id : option string) : bool :=
  if truthy_flag (block m)
  then truthy_flag (block m)
  else if negb (truthy document_id) || negb (truthy (cell_id m))
  then true
  else false.

(** [mimic_post]. *)
Definition mimic_post (m : model) (kr : run) : M response :=
  let k := kernel_id m in
  let* s := get_state in
  if negb (bool_decide (k ∈ kernels s))
  then raise (HTTPError 404 ("No such kernel " ++ k))
  else
    let cid := cell_id m in
    let document_id := index (path m) in
    if is_executing (executing_cell s) k document_id cid
    then ret (Response "executing" [("model", VModel m)])
    else
      let blocking := block_mode m document_id in
      let* src := (if truthy (code m) then ret (code m)
                   else read_code_from_ipynb document_id cid) in
      match src with
      | None => raise AssertionError
      | Some src =>
          if negb blocking
          then
            execute (if negb (not_write m)
                     then Some (write_callback k document_id cid) else None)
                    kr k src document_id cid ;;;
            ret (Response "post" [("model", VModel m)])
          else
            let* r := execute None kr k src document_id cid in
            (if negb (not_write m)
             then let* _ := write_output document_id cid r in ret tt
             else ret tt) ;;;
            ret (Response "post_block" [])
      end.

(** ** The stretches of a request between its awaits

    [mimic_post] is a coroutine: it runs without interruption up to an
    [await] that suspends, and other requests are handled while it is
    suspended.  Between the duplicate check (line 95) and the registration
    in [pre_execute] (line 182) it awaits [read_code_from_ipynb] when the
    request brings no code (line 128); after the registration it awaits the
    kernel in [client.execute] (line 173).  The definitions below are the
    stretches of [mimic_post] these two points delimit. *)

(** Lines 87 to 103: the kernel check and the duplicate check.  [None]
    lets the request go on. *)
Definition check_request (m : model) : M (option response) :=
  let k := kernel_id m in
  let* s := get_state in
  if negb (bool_decide (k ∈ kernels s))
  then raise (HTTPError 404 ("No such kernel " ++ k))
  else
    if is_executing (executing_cell s) k (index (path m)) (cell_id m)
    then ret (Some (Response "executing" [("model", VModel m)]))
    else ret None.

(** Lines 128 to 132: the code, inline or read from the notebook. *)
Definition fetch_code (m : model) : M string :=
  let* src := (if truthy (code m) then ret (code m)
               else read_code_from_ipynb (index (path m)) (cell_id m)) in
  match src with
  | None => raise AssertionError
  | Some src => ret src
  end.

(** Lines 171 to 173 of [execute], up to the point where [client.execute]
    awaits the kernel: the record is registered and the code is sent. *)
Definition begin_execute (k src : string) (document_id cid : option string) : M unit :=
  pre_execute k document_id cid ;;;
  modify (emit (Dispatch k src)).

(** Lines 134 to 167: the execution in the mode of the request, and the
    response. *)
Definition answer_request (m : model) (src : string) (kr : run) : M response :=
  let k := kernel_id m in
  let cid := cell_id m in
  let document_id := index (path m) in
  if negb (block_mode m document_id)
  then
    execute (if negb (not_write m)
             then Some (write_callback k document_id cid) else None)
            kr k src document_id cid ;;;
    ret (Response "post" [("model", VModel m)])
  else
    let* r := execute None kr k src document_id cid in
    (if negb (not_write m)
     then let* _ := write_output document_id cid r in ret tt
     else ret tt) ;;;
    ret (Response "post_block" []).

End Handler.

(** ** A notebook server to evaluate the handler on *)

Module Demo.

(** One notebook, [nb.ipynb], known to the file-id manager as [doc-1]. *)
Definition index (p : option string) : option string :=
  if decide (p = Some "nb.ipynb") then Some "doc-1" else None.

Definition get_path (d : option string) : string :=
  if decide (d = Some "doc-1") then "nb.ipynb" else "".

Definition notebook : list cell :=
  [Cell "c0" "x = 1" (Some []) None; Cell "c1" "print(x)" (Some []) None].

(** A server with the kernel [k1] and nothing executing. *)
Definition idle : state :=
  State ∅ {["k1"]} {["nb.ipynb" := notebook]} false [].

(** The same server after some execution on [k1] was registered and
    removed: the ledger keeps the empty list for [k1]. *)
Definition used : state :=
  State {["k1" := []]} {["k1"]} {["nb.ipynb" := notebook]} false [].

(** The server while cell [cid] of [nb.ipynb] is awaiting [k1]. *)
Definition in_flight (cid : string) : state :=
  (pre_execute "k1" (Some "doc-1") (Some cid) idle).1.

(** What the client reports while the kernel streams, and at the end. *)
Definition streamed : result := Result [Output "1"] None.
Definition finished : result := Result [Output "1"] (Some 1).

(** [{kernel_id: k1, path: nb.ipynb, cell_id: c1, code: print(x)}]. *)
Definition post_c1 : model :=
  Model "k1" (Some "nb.ipynb") (Some "c1") false None (Some "print(x)").

(** [{kernel_id: k1, code: 1+1, block: true}]. *)
Definition post_inline : model :=
  Model "k1" None None false (Some true) (Some "1+1").

(** [{kernel_id: k1, path: nb.ipynb, cell_id: c1}]: the code is read from
    the notebook. *)
Definition post_c1_stored : model :=
  Model "k1" (Some "nb.ipynb") (Some "c1") false None None.

(** The server while the request [post_c1] awaits the kernel, after the
    client has called [write_callback] once, with [streamed]. *)
Definition streaming : state :=
  ((begin_execute "k1" "print(x)" (index (path post_c1)) (cell_id post_c1) ;;;
    write_callback get_path "k1" (index (path post_c1)) (cell_id post_c1) streamed)
     idle).1.

(** Two requests [post_c1_stored], the second handled while the first
    awaits [read_code_from_ipynb]: both are checked before either is
    registered, then each goes on up to its await of the kernel.  The result
    is what the two checks answered. *)
Definition interleaved : M (option response * option response) :=
  let m := post_c1_stored in
  let* first := check_request index m in
  let* second := check_request index m in
  let* src1 := fetch_code index get_path m in
  begin_execute (kernel_id m) src1 (index (path m)) (cell_id m) ;;;
  let* src2 := fetch_code index get_path m in
  begin_execute (kernel_id m) src2 (index (path m)) (cell_id m) ;;;
  ret (first, second).

End Demo.

(** ** Status queries, the connection and the route *)

(** One dictionary of the payload of [mimic_get]. *)
Record status := Status {
  st_path : string;
  st_cell_id : option string;
  st_execution_count : option Z;
  st_output : string
}.

(** [{'meta': 'get', 'payload': [...]}], as [mimic_get] returns it. *)
Record listing := Listing {
  l_meta : string;
  l_payload : list status
}.

(** A decoded inbound message, by its [meta]. *)
Inductive envelope :=
| EPost (m : model)        (* {"meta": "post", "payload": model} *)
| EGet (k : string)        (* {"meta": "get", "payload": {"kernel_id": k}} *)
| EOther (kind : string).  (* any other meta *)

(** The message [on_message] writes back. *)
Inductive frame :=
| PostResult (body : list (string * value))  (* {"meta": "post_result", ...} *)
| GetResult (body : list status).            (* {"meta": "get", ...} *)

(** [executing_document]: the document ids of all records of all kernels.
    The kernels are visited in the order of the finite map, where Python
    visits them in insertion order. *)
Definition executing_document (cells : gmap string (list record)) : list (option string) :=
  map_to_list cells ≫= (λ kv, rec_document_id <$> kv.2).

Section Session.

Variable index : option string → option string.
Variable get_path : option string → string.

(** The dictionary [mimic_get] builds for one record. *)
Definition status_of (rec : record) : status :=
  Status (get_path (rec_document_id rec)) (rec_cell_id rec)
         (rec_execution_count rec) (rec_output rec).

(** [mimic_get]. *)
Definition mimic_get (k : string) : M listing :=
  let* s := get_state in
  if negb (bool_decide (k ∈ kernels s))
  then raise (HTTPError 404 ("No such kernel " ++ k))
  else ret (Listing "get" (status_of <$> records_of (executing_cell s) k)).

(** [on_message]; the result is the message it writes with
    [write_message] as its last action, if any. *)
Definition on_message (msg : envelope) (kr : run) : M (option frame) :=
  match msg with
  | EPost m =>
      let* res := mimic_post index get_path m kr in
      ret (Some (PostResult (payload res)))
  | EGet k =>
      let* res := mimic_get k in
      ret (Some (GetResult (l_payload res)))
  | EOther _ => ret None
  end.

End Session.

(** [str.rstrip(c)] for a single character. *)
Fixpoint rstrip (c : Ascii.ascii) (s : string) : string :=
  match s with
  | EmptyString => EmptyString
  | String a s' =>
      match rstrip c s' with
      | EmptyString => if decide (a = c) then EmptyString else String a EmptyString
      | t => String a t
      end
  end.

(** The route [setup_handlers] registers for the handler. *)
Definition execute_websocket_route (base_url : string) : string :=
  rstrip "/"%char base_url ++ "/api/kernels/" ++
  "(?P<kernel_id>\w+-\w+-\w+-\w+-\w+)" ++ "/execute_websocket".

(** What [write_output] may not touch in a cell: its id and its source. *)
Definition cell_key (c : cell) : string * string := (c_id c, c_source c).

(** What [update_execute_result] may not touch in a record. *)
Definition record_key (rec : record) : option string * option string :=
  (rec_document_id rec, rec_cell_id rec).

(** The trace of [s] continues [t]. *)
Definition extends (t : list event) (s : state) : Prop :=
  ∃ rest, trace s = (t ++ rest)%list.

(** ** Invariants and predicates used in the statements *)

(** Every record of the ledger was registered by [pre_execute], hence with
    a truthy document id and a truthy cell id. *)
Definition ledger_wf (cells : gmap string (list record)) : Prop :=
  ∀ k recs rec, cells !! k = Some recs → rec ∈ recs →
    truthy (rec_document_id rec) = true ∧ truthy (rec_cell_id rec) = true.

Definition wf_state (s : state) : Prop := ledger_wf (executing_cell s).

(** A record for the triple is in the ledger, whatever it has accumulated. *)
Definition tracked (cells : gmap string (list record))
    (k : string) (document_id cid : option string) (rec : record) : Prop :=
  rec ∈ records_of cells k ∧
  rec_document_id rec = document_id ∧ rec_cell_id rec = cid.

(** The response holds the record under some key of its payload. *)
Definition carries_record (resp : response) (rec : record) : Prop :=
  ∃ key, (key, VRecord rec) ∈ payload resp.

(** The response holds the execution result under some key of its payload. *)
Definition carries_result (resp : response) (r : result) : Prop :=
  ∃ key, (key, VResult r) ∈ payload resp.

(** A computation never leaves the set of states satisfying [P]. *)
Definition keeps {A} (P : state → Prop) (m : M A) : Prop :=
  ∀ s, P s → P (m s).1.

(** ** The monad *)

Lemma keeps_ret {A} P (a : A) : keeps P (ret a).
Proof. by intros s Hs. Qed.

Lemma keeps_raise {A} P e : keeps P (@raise A e).
Proof. by intros s Hs. Qed.

Lemma keeps_get_state P : keeps P get_state.
Proof. by intros s Hs. Qed.

Lemma keeps_modify P f : (∀ s, P s → P (f s)) → keeps P (modify f).
Proof. intros Hf s Hs. by apply Hf. Qed.

Lemma keeps_bind {A B} P (m : M A) (k : A → M B) :
  keeps P m → (∀ a, keeps P (k a)) → keeps P (bind m k).
Proof.
  intros Hm Hk s Hs. unfold bind.
  specialize (Hm s Hs). destruct (m s) as [s' [a|e]]; simpl in *.
  - by apply Hk.
  - done.
Qed.

Lemma keeps_try_finally {A} P (body : M A) fin :
  keeps P body → keeps P fin → keeps P (try_finally body fin).
Proof.
  intros Hb Hf s Hs. unfold try_finally.
  specialize (Hb s Hs). destruct (body s) as [s' o]; simpl in *.
  specialize (Hf s' Hb). by destruct (fin s') as [s'' [[]|e]].
Qed.

Lemma keeps_try_except P body handler :
  keeps P body → (∀ e, keeps P (handler e)) → keeps P (try_except body handler).
Proof.
  intros Hb Hh s Hs. unfold try_except.
  specialize (Hb s Hs). destruct (body s) as [s' [[]|e]]; simpl in *.
  - done.
  - by apply Hh.
Qed.

(** ** Truthiness and the ledger *)

Lemma truthy_Some_inv o : truthy o = true → ∃ s, o = Some s ∧ s ≠ "".
Proof.
  destruct o as [s|]; simpl; [|done].
  intros H. exists s. split; [done|].
  intros ->. by rewrite String.eqb_refl in H.
Qed.

Lemma is_executing_true cells k d cid :
  is_executing cells k d cid = true ↔ get_record d cid ∈ records_of cells k.
Proof. unfold is_executing. by rewrite bool_decide_eq_true. Qed.

Lemma is_executing_false cells k d cid :
  is_executing cells k d cid = false ↔ get_record d cid ∉ records_of cells k.
Proof. unfold is_executing. by rewrite bool_decide_eq_false. Qed.

Lemma ledger_wf_empty : ledger_wf ∅.
Proof. intros k recs rec Hk. by rewrite lookup_empty in Hk. Qed.

Lemma ledger_wf_records_of cells k rec :
  ledger_wf cells → rec ∈ records_of cells k →
  truthy (rec_document_id rec) = true ∧ truthy (rec_cell_id rec) = true.
Proof.
  intros Hwf. unfold records_of.
  destruct (cells !! k) as [recs|] eqn:Hk; simpl.
  - intros Hin. by apply (Hwf k recs rec).
  - intros Hin. by apply elem_of_nil in Hin.
Qed.

(** With only well-formed records, a request lacking a document id or a
    cell id is never reported as executing. *)
Lemma ledger_wf_not_executing cells k d cid :
  ledger_wf cells → truthy d && truthy cid = false →
  is_executing cells k d cid = false.
Proof.
  intros Hwf Hf. apply is_executing_false. intros Hin.
  destruct (ledger_wf_records_of _ _ _ Hwf Hin) as [Hd Hc]. simpl in *.
  by rewrite Hd, Hc in Hf.
Qed.

Lemma remove_first_subseteq x l : remove_first x l ⊆ l.
Proof.
  induction l as [|y l IH]; simpl; [done|].
  destruct (decide (y = x)) as [_|_].
  - by apply list_subseteq_cons.
  - by apply list_subseteq_skip.
Qed.

Lemma update_record_ids r cid fin rec :
  rec_document_id (update_record r cid fin rec) = rec_document_id rec ∧
  rec_cell_id (update_record r cid fin rec) = rec_cell_id rec.
Proof. unfold update_record. by destruct (decide _). Qed.

Lemma update_record_other r cid fin rec :
  rec_cell_id rec ≠ cid → update_record r cid fin rec = rec.
Proof. intros Hne. unfold update_record. by destruct (decide _). Qed.

(** [update_execute_result] without an entry for the kernel. *)
Lemma update_execute_result_no_entry r k cid fin s :
  executing_cell s !! k = None →
  update_execute_result r k cid fin s = (s, Raise (KeyError k)).
Proof. intros Hk. unfold update_execute_result. by rewrite Hk. Qed.

(** [update_execute_result] with an entry but no record of that cell: the
    state is left as it was. *)
Lemma update_execute_result_no_match r k cid fin s recs :
  executing_cell s !! k = Some recs →
  (∀ rec, rec ∈ recs → rec_cell_id rec ≠ cid) →
  update_execute_result r k cid fin s = (s, Ok tt).
Proof.
  intros Hk Hne. unfold update_execute_result. rewrite Hk. f_equal.
  assert (update_record r cid fin <$> recs = recs) as ->.
  { clear Hk. induction recs as [|rec recs IH]; [done|].
    rewrite fmap_cons, update_record_other by (apply Hne; set_solver).
    rewrite IH; [done|]. intros rec' Hin. apply Hne. set_solver. }
  destruct s as [cells ks nbs w tr]. unfold set_executing_cell; simpl in *.
  by rewrite insert_id.
Qed.

(** ** The ledger stays well formed *)

Lemma keeps_wf_outside f :
  (∀ s, executing_cell (f s) = executing_cell s) → keeps wf_state (modify f).
Proof.
  intros Hf. apply keeps_modify. intros s Hs. unfold wf_state. by rewrite Hf.
Qed.

Lemma ledger_wf_insert cells k recs :
  ledger_wf cells →
  (∀ rec, rec ∈ recs →
     truthy (rec_document_id rec) = true ∧ truthy (rec_cell_id rec) = true) →
  ledger_wf (<[k := recs]> cells).
Proof.
  intros Hwf Hrecs k' recs' rec Hk' Hin.
  destruct (decide (k = k')) as [<-|Hne].
  - rewrite lookup_insert_eq in Hk'. injection Hk' as <-. by apply Hrecs.
  - rewrite lookup_insert_ne in Hk' by done. by apply (Hwf k' recs' rec).
Qed.

Lemma update_execute_result_wf r k cid fin :
  keeps wf_state (update_execute_result r k cid fin).
Proof.
  intros s Hs. unfold update_execute_result.
  destruct (executing_cell s !! k) as [recs|] eqn:Hk; simpl; [|done].
  apply ledger_wf_insert; [done|].
  intros rec' (rec & -> & Hin)%list_elem_of_fmap.
  destruct (update_record_ids r cid fin rec) as [-> ->].
  by apply (Hs k recs rec).
Qed.

Lemma pre_execute_wf k d cid : keeps wf_state (pre_execute k d cid).
Proof.
  unfold pre_execute.
  destruct (truthy d && truthy cid) eqn:Hids; [|apply keeps_ret].
  apply andb_true_iff in Hids as [Hd Hc].
  apply keeps_bind; [|intros _; by apply keeps_wf_outside].
  apply keeps_modify. intros s Hs.
  apply ledger_wf_insert; [done|].
  intros rec [Hin| ->%list_elem_of_singleton]%elem_of_app.
  - by apply ledger_wf_records_of with (executing_cell s) k.
  - done.
Qed.

Lemma post_execute_wf k d cid : keeps wf_state (post_execute k d cid).
Proof.
  unfold post_execute.
  destruct (truthy d && truthy cid); [|apply keeps_ret].
  apply keeps_bind; [by apply keeps_wf_outside|]. intros _.
  apply keeps_modify. intros s Hs. unfold wf_state; simpl.
  case_bool_decide as Hin; [|done].
  apply ledger_wf_insert; [done|].
  intros rec Hrec%remove_first_subseteq.
  by apply ledger_wf_records_of with (executing_cell s) k.
Qed.

Lemma cm_get_state file s : (cm_get file s).1 = s.
Proof. unfold cm_get. by destruct (contents s !! file). Qed.

Lemma cm_get_wf file : keeps wf_state (cm_get file).
Proof. intros s Hs. by rewrite cm_get_state. Qed.

Lemma cm_save_wf file cells : keeps wf_state (cm_save file cells).
Proof. by apply keeps_wf_outside. Qed.

Section HandlerFacts.

Variable index : option string → option string.
Variable get_path : option string → string.

Lemma write_output_wf d cid r : keeps wf_state (write_output get_path d cid r).
Proof.
  unfold write_output.
  destruct (negb (truthy d) || negb (truthy cid)); [apply keeps_ret|].
  apply keeps_bind; [apply cm_get_wf|]. intros cells.
  destruct (apply_result cid r cells) as [[cells' [|]]|e];
    [|apply keeps_ret|apply keeps_raise].
  apply keeps_bind; [apply cm_save_wf|]. intros _.
  apply keeps_bind; [by apply keeps_wf_outside|]. intros _.
  apply keeps_bind; [by apply keeps_wf_outside|]. intros _.
  apply keeps_ret.
Qed.

(** [write_output], step by step. *)
Lemma write_output_run d cid r s :
  write_output get_path d cid r s =
  if negb (truthy d) || negb (truthy cid) then (s, Ok false)
  else
    match contents s !! get_path d with
    | None =>
        (s, Raise (HTTPError 404 ("No such file or directory: " ++ get_path d)))
    | Some cells =>
        match apply_result cid r cells with
        | Raise e => (s, Raise e)
        | Ok (cells', true) =>
            (emit (WriteMessage cells')
               (emit (FileIdSave (get_path d))
                  (emit (Save (get_path d) cells')
                     (set_contents (insert (get_path d) cells') s))),
             Ok true)
        | Ok (cells', false) => (s, Ok false)
        end
    end.
Proof.
  unfold write_output.
  destruct (negb (truthy d) || negb (truthy cid)); [done|].
  unfold bind at 1. unfold cm_get.
  destruct (contents s !! get_path d) as [cells|]; [|done].
  by destruct (apply_result cid r cells) as [[cells' [|]]|e].
Qed.

Lemma write_callback_wf k d cid r :
  keeps wf_state (write_callback get_path k d cid r).
Proof.
  apply keeps_try_except.
  - apply keeps_bind; [apply update_execute_result_wf|]. intros _.
    apply keeps_bind; [apply write_output_wf|]. intros _. apply keeps_ret.
  - intros e. by apply keeps_wf_outside.
Qed.

Lemma run_callbacks_wf cb snapshots :
  (∀ r, keeps wf_state (cb r)) → keeps wf_state (run_callbacks cb snapshots).
Proof.
  intros Hcb. induction snapshots as [|r snapshots IH]; simpl.
  - apply keeps_ret.
  - apply keeps_bind; [apply Hcb|]. by intros _.
Qed.

Lemma client_execute_wf cb kr k src :
  (∀ f, cb = Some f → ∀ r, keeps wf_state (f r)) →
  keeps wf_state (client_execute cb kr k src).
Proof.
  intros Hcb. unfold client_execute.
  apply keeps_bind; [by apply keeps_wf_outside|]. intros _.
  apply keeps_bind; [|by intros _ s Hs].
  destruct cb as [f|]; [|apply keeps_ret].
  apply run_callbacks_wf. by apply Hcb.
Qed.

Lemma execute_wf cb kr k src d cid :
  (∀ f, cb = Some f → ∀ r, keeps wf_state (f r)) →
  keeps wf_state (execute cb kr k src d cid).
Proof.
  intros Hcb. unfold execute.
  apply keeps_bind; [apply pre_execute_wf|]. intros _.
  apply keeps_bind.
  - apply keeps_try_finally; [by apply client_execute_wf|apply post_execute_wf].
  - intros r. apply keeps_bind; [apply update_execute_result_wf|].
    intros _. apply keeps_ret.
Qed.

Lemma read_code_from_ipynb_state d cid s :
  (read_code_from_ipynb get_path d cid s).1 = s.
Proof.
  unfold read_code_from_ipynb.
  destruct (negb (truthy d) || negb (truthy cid)); [done|].
  unfold bind, cm_get. destruct (contents s !! get_path d) as [cells|]; [|done].
  by destruct (find_cell cid cells).
Qed.

(** Whatever the request and whatever the kernel does, [mimic_post] only
    leaves well-formed records in the ledger. *)
Lemma mimic_post_wf m kr : keeps wf_state (mimic_post index get_path m kr).
Proof.
  unfold mimic_post.
  apply keeps_bind; [apply keeps_get_state|]. intros s0.
  destruct (negb _); [apply keeps_raise|].
  destruct (is_executing _ _ _ _); [apply keeps_ret|].
  apply keeps_bind.
  { destruct (truthy (code m)); [apply keeps_ret|].
    intros s Hs. by rewrite read_code_from_ipynb_state. }
  intros [src|]; [|apply keeps_raise].
  destruct (negb (block_mode m (index (path m)))).
  - apply keeps_bind; [|intros _; apply keeps_ret].
    apply execute_wf. intros f Hf r.
    destruct (negb (not_write m)); [|done].
    injection Hf as <-. apply write_callback_wf.
  - apply keeps_bind; [by apply execute_wf|]. intros r.
    apply keeps_bind; [|intros _; apply keeps_ret].
    destruct (negb (not_write m)); [|apply keeps_ret].
    apply keeps_bind; [apply write_output_wf|]. intros _. apply keeps_ret.
Qed.

(** ** The notebook writer *)



(** Once the outputs were compared and stored, they compare equal. *)
Lemma outputs_settled (new old : list output) :
  let stored := if bool_decide (new ≠ old) then new else old in
  stored = new ∧ bool_decide (new ≠ stored) = false.
Proof.
  simpl. destruct (decide (new = old)) as [->|Hne].
  - rewrite (bool_decide_eq_false_2 (old ≠ old)) by (intros Hn; by apply Hn).
    split; [done|]. apply bool_decide_eq_false_2. intros Hn; by apply Hn.
  - rewrite (bool_decide_eq_true_2 (new ≠ old)) by done.
    split; [done|]. apply bool_decide_eq_false_2. intros Hn; by apply Hn.
Qed.

(** Applying the same result to the cells a first application returned
    returns the same cells; the flag is raised again exactly when the cell
    exists and the result carries a truthy execution count. *)
Lemma apply_result_again cid r cells cells' u :
  apply_result cid r cells = Ok (cells', u) →
  apply_result cid r cells' =
    Ok (cells', bool_decide (is_Some (find_cell cid cells)) &&
                truthy_count (execution_count r)).
Proof.
  revert cells' u. induction cells as [|c cells IH]; intros cells' u; simpl.
  - by intros [= <- <-].
  - destruct (decide (Some (c_id c) = cid)) as [Heq|Hne].
    + destruct (c_outputs c) as [stored|]; [|done]. intros [= <- <-]. simpl.
      rewrite decide_True by done. simpl.
      destruct (outputs_settled (outputs r) stored) as [Hst Hcmp].
      simpl in Hst, Hcmp. rewrite Hcmp. simpl.
      by destruct (truthy_count (execution_count r)).
    + destruct (apply_result cid r cells) as [[cells1 u1]|e] eqn:Hap; [|done].
      intros [= <- <-]. simpl. rewrite decide_False by done.
      by rewrite (IH _ _ eq_refl).
Qed.

Lemma apply_result_cells_idem cid r cells cells' u :
  apply_result cid r cells = Ok (cells', u) →
  ∃ u', apply_result cid r cells' = Ok (cells', u').
Proof. intros Hap. eexists. by apply (apply_result_again _ _ _ _ _ Hap). Qed.

Lemma apply_result_flag_again cid r cells cells' u :
  apply_result cid r cells = Ok (cells', u) →
  ∃ cells'',
    apply_result cid r cells' =
      Ok (cells'', bool_decide (is_Some (find_cell cid cells)) &&
                   truthy_count (execution_count r)).
Proof. intros Hap. eexists. by apply (apply_result_again _ _ _ _ _ Hap). Qed.

(** A flag that stays down means no cell was rewritten. *)
Lemma apply_result_unflagged cid r cells cells' :
  apply_result cid r cells = Ok (cells', false) → cells' = cells.
Proof.
  revert cells'. induction cells as [|c cells IH]; intros cells'; simpl.
  - by intros [= <-].
  - destruct (decide (Some (c_id c) = cid)) as [Heq|Hne].
    + destruct (c_outputs c) as [stored|] eqn:Hstored; [|done].
      intros [= <- Hflag]. apply orb_false_iff in Hflag as [Hd Hc].
      rewrite Hd, Hc. destruct c; simpl in *. by subst.
    + destruct (apply_result cid r cells) as [[cells1 u1]|e]; [|done].
      intros [= <- ->]. by rewrite (IH _ eq_refl).
Qed.

(** What a second [write_output] of the same result does after a first one
    that returned: the notebooks stay as the first call left them, and the
    notebook is saved again exactly when the cell exists and the result has
    a truthy execution count. *)
Lemma write_output_again d cid r s s1 u :
  write_output get_path d cid r s = (s1, Ok u) →
  ∃ s2 u2 cells,
    write_output get_path d cid r s1 = (s2, Ok u2) ∧
    contents s2 = contents s1 ∧
    (truthy d && truthy cid = true → contents s !! get_path d = Some cells ∧
       u2 = bool_decide (is_Some (find_cell cid cells)) &&
            truthy_count (execution_count r)) ∧
    (truthy d && truthy cid = false → u2 = false).
Proof.
  rewrite write_output_run.
  destruct (truthy d && truthy cid) eqn:Hids.
  - assert (negb (truthy d) || negb (truthy cid) = false) as Hcond
      by (by apply andb_true_iff in Hids as [-> ->]).
    rewrite Hcond.
    destruct (contents s !! get_path d) as [cells|] eqn:Hnb; [|done].
    destruct (apply_result cid r cells) as [[cells' u1]|e] eqn:Hap; [|done].
    pose proof (apply_result_again _ _ _ _ _ Hap) as Hagain.
    assert (∀ s', contents s' !! get_path d = Some cells' →
              ∃ s2 u2,
                write_output get_path d cid r s' = (s2, Ok u2) ∧
                contents s2 = contents s' ∧
                u2 = bool_decide (is_Some (find_cell cid cells)) &&
                     truthy_count (execution_count r)) as Hsecond.
    { intros s' Hs'. rewrite write_output_run, Hcond, Hs', Hagain.
      destruct (bool_decide _ && _).
      - eexists _, true. split; [done|]. split; [|done].
        simpl. by apply insert_id.
      - by exists s', false. }
    destruct u1.
    + intros [= <- <-].
      destruct (Hsecond (emit (WriteMessage cells')
                  (emit (FileIdSave (get_path d))
                     (emit (Save (get_path d) cells')
                        (set_contents (insert (get_path d) cells') s)))))
        as (s2 & u2 & Hrun & Hc & Hu).
      { simpl. apply lookup_insert_eq. }
      exists s2, u2, cells. by repeat split.
    + intros [= <- <-].
      pose proof (apply_result_unflagged _ _ _ _ Hap) as ->.
      destruct (Hsecond s Hnb) as (s2 & u2 & Hrun & Hc & Hu).
      exists s2, u2, cells. by repeat split.
  - assert (negb (truthy d) || negb (truthy cid) = true) as Hcond.
    { apply andb_false_iff in Hids as [-> | ->]; [done|]. apply orb_true_r. }
    rewrite Hcond. intros [= <- <-]. exists s, false, [].
    rewrite write_output_run, Hcond. by repeat split.
Qed.

(** ** Cleanup when nothing touched the record *)

Lemma remove_first_registered x l : x ∉ l → remove_first x (l ++ [x]) = l.
Proof.
  induction l as [|y l IH]; simpl; intros Hnotin.
  - by rewrite decide_True.
  - apply not_elem_of_cons in Hnotin as [Hne Hnotin].
    rewrite decide_False by done. by rewrite IH.
Qed.

Lemma records_of_insert cells k recs : records_of (<[k := recs]> cells) k = recs.
Proof. unfold records_of. by rewrite lookup_insert_eq. Qed.

(** [pre_execute] directly followed by [post_execute] restores the records
    of the kernel and leaves the handler unregistered from the watcher. *)
Lemma post_after_pre k d cid s :
  truthy d && truthy cid = true →
  is_executing (executing_cell s) k d cid = false →
  ∀ f, (∀ s', executing_cell (f s') = executing_cell s') →
  let s' := (post_execute k d cid (f (pre_execute k d cid s).1)).1 in
  records_of (executing_cell s') k = records_of (executing_cell s) k ∧
  watching s' = false.
Proof.
  intros Hids Hfree%is_executing_false f Hf. unfold pre_execute, post_execute.
  rewrite Hids. unfold bind, modify, watcher_add, watcher_remove. simpl.
  rewrite Hf. cbn [executing_cell set_executing_cell set_watching watching].
  split; [|done].
  rewrite records_of_insert.
  rewrite bool_decide_eq_true_2
    by (apply elem_of_app; right; by apply list_elem_of_singleton).
  rewrite records_of_insert.
  by apply remove_first_registered.
Qed.

(** Without a registered callback, an execution whose [client.execute]
    raises leaves the records of the kernel as they were: the [finally]
    block removed the record [pre_execute] had registered. *)
Lemma execute_silent_failure k src d cid snapshots e s :
  truthy d && truthy cid = true →
  is_executing (executing_cell s) k d cid = false →
  let out := execute None (Run snapshots (Raise e)) k src d cid s in
  out.2 = Raise e ∧
  records_of (executing_cell out.1) k = records_of (executing_cell s) k ∧
  watching out.1 = false.
Proof.
  intros Hids Hfree.
  pose proof (post_after_pre k d cid s Hids Hfree (emit (Dispatch k src))
                (λ _, eq_refl)) as Hpp.
  unfold execute, client_execute, try_finally, bind, ret, modify in *.
  simpl in *.
  destruct (pre_execute k d cid s) as [s1 [[]|e1]] eqn:Hpre.
  2:{ unfold pre_execute in Hpre. rewrite Hids in Hpre. by vm_compute in Hpre. }
  simpl in *.
  destruct (post_execute k d cid (emit (Dispatch k src) s1)) as [s2 [[]|e2]] eqn:Hpost.
  2:{ unfold post_execute in Hpost. rewrite Hids in Hpost. by vm_compute in Hpost. }
  simpl in *. by destruct Hpp.
Qed.

(** The same on the successful exit: the record registered by
    [pre_execute] is gone, and the records left for the kernel are the
    earlier ones, updated by the final [update_execute_result]. *)
Lemma execute_silent_success k src d cid snapshots r s :
  truthy d && truthy cid = true →
  is_executing (executing_cell s) k d cid = false →
  let out := execute None (Run snapshots (Ok r)) k src d cid s in
  out.2 = Ok r ∧
  records_of (executing_cell out.1) k =
    update_record r cid true <$> records_of (executing_cell s) k ∧
  watching out.1 = false.
Proof.
  intros Hids Hfree.
  pose proof (post_after_pre k d cid s Hids Hfree (emit (Dispatch k src))
                (λ _, eq_refl)) as Hpp.
  assert (is_Some (executing_cell
            (post_execute k d cid (emit (Dispatch k src) (pre_execute k d cid s).1)).1
            !! k)) as [recs Hrecs].
  { unfold pre_execute, post_execute. rewrite Hids.
    unfold bind, modify, watcher_add, watcher_remove. simpl.
    case_bool_decide; rewrite ?lookup_insert_eq; by eexists. }
  unfold execute, client_execute, try_finally, bind, ret, modify in *.
  simpl in *.
  destruct (pre_execute k d cid s) as [s1 [[]|e1]] eqn:Hpre.
  2:{ unfold pre_execute in Hpre. rewrite Hids in Hpre. by vm_compute in Hpre. }
  simpl in *.
  destruct (post_execute k d cid (emit (Dispatch k src) s1)) as [s2 [[]|e2]] eqn:Hpost.
  2:{ unfold post_execute in Hpost. rewrite Hids in Hpost. by vm_compute in Hpost. }
  simpl in *. destruct Hpp as [Hsame Hwatch].
  unfold update_execute_result. rewrite Hrecs. simpl.
  split; [done|]. split; [|done].
  unfold records_of at 1. rewrite lookup_insert_eq. simpl.
  unfold records_of in Hsame. rewrite Hrecs in Hsame. simpl in Hsame.
  by rewrite Hsame.
Qed.

(** ** The execution mode *)

(** What lines 105 to 113 compute: only [block = true] is taken from the
    request; an absent flag and [block = false] both fall through to the
    test on the document id and the cell id. *)
Lemma block_mode_cases m d :
  block_mode m d =
  match block m with
  | Some true => true
  | Some false | None => negb (truthy d && truthy (cell_id m))
  end.
Proof.
  unfold block_mode. destruct (block m) as [[|]|]; simpl; try done.
  all: by destruct (truthy d), (truthy (cell_id m)).
Qed.

(** ** Claims that hold once amended *)

(** C7, as amended.  Whenever [is_executing] holds for the key of a post
    request on a kernel the kernel manager knows, the handler returns the
    status [executing] with the request model echoed in the payload, and
    leaves the whole state as it was: the ledger is untouched and nothing is
    dispatched to the kernel. *)
Theorem already_executing_echoes_request m kr s :
  kernel_id m ∈ kernels s →
  is_executing (executing_cell s) (kernel_id m) (index (path m)) (cell_id m) = true →
  mimic_post index get_path m kr s =
    (s, Ok (Response "executing" [("model", VModel m)])).
Proof.
  intros Hk Hexec. unfold mimic_post, bind, get_state.
  rewrite bool_decide_eq_true_2 by done. simpl. by rewrite Hexec.
Qed.


(** C10, as amended.  For a request on a kernel the kernel manager knows,
    with no code (or the empty string) and with the document id or the cell
    id missing or empty, [read_code_from_ipynb] returns [None] and
    [mimic_post] fails the bare assertion with [AssertionError], leaving the
    state as it was.  The ledger is any ledger the handler can have built. *)
Theorem missing_ids_fail_the_assertion m kr s :
  kernel_id m ∈ kernels s →
  ledger_wf (executing_cell s) →
  truthy (code m) = false →
  truthy (index (path m)) && truthy (cell_id m) = false →
  read_code_from_ipynb get_path (index (path m)) (cell_id m) s = (s, Ok None) ∧
  mimic_post index get_path m kr s = (s, Raise AssertionError).
Proof.
  intros Hk Hwf Hcode Hids.
  assert (read_code_from_ipynb get_path (index (path m)) (cell_id m) s = (s, Ok None))
    as Hread.
  { unfold read_code_from_ipynb.
    by apply andb_false_iff in Hids as [-> | ->]; rewrite ?orb_true_r. }
  split; [done|]. unfold mimic_post, bind, get_state.
  rewrite bool_decide_eq_true_2 by done. simpl.
  rewrite ledger_wf_not_executing by done.
  by rewrite Hcode, Hread.
Qed.

End HandlerFacts.

(** C7, the claim as stated fails.  While cell [c1] is executing on [k1],
    posting it again is answered with a payload that holds the request model
    and no ledger record; and once the kernel manager has dropped [k1], the
    same request is answered 404 although the ledger still reports the cell
    as executing. *)
Lemma already_executing_response_lacks_record :
  let s := Demo.in_flight "c1" in
  let dropped := State (executing_cell s) ∅ (contents s) (watching s) (trace s) in
  let kr := Run [] (Ok Demo.finished) in
  is_executing (executing_cell s) "k1"
    (Demo.index (path Demo.post_c1)) (cell_id Demo.post_c1) = true ∧
  (∃ resp, (mimic_post Demo.index Demo.get_path Demo.post_c1 kr s).2 = Ok resp ∧
           ∀ rec, ¬ carries_record resp rec) ∧
  (mimic_post Demo.index Demo.get_path Demo.post_c1 kr dropped).2 =
    Raise (HTTPError 404 "No such kernel k1").
Proof.
  split; [by vm_compute|]. split; [|by vm_compute].
  eexists. split; [by vm_compute|].
  intros rec [key Hin]. by apply list_elem_of_singleton in Hin.
Qed.

(** C7 on the demo server: cell [c1] is posted again while it executes. *)
Lemma already_executing_echoes_request_holds :
  mimic_post Demo.index Demo.get_path Demo.post_c1 (Run [] (Ok Demo.finished))
    (Demo.in_flight "c1") =
  (Demo.in_flight "c1", Ok (Response "executing" [("model", VModel Demo.post_c1)])).
Proof.
  apply already_executing_echoes_request.
  - apply (bool_decide_unpack _). vm_compute. exact I.
  - vm_compute. reflexivity.
Defined.



(** C10, the claim as stated fails.  A request without code, path and cell
    id that names a kernel the kernel manager does not know fails with the
    typed 404 error of the kernel check, not with [AssertionError]. *)
Lemma missing_ids_on_unknown_kernel :
  mimic_post Demo.index Demo.get_path (Model "k9" None None false None None)
    (Run [] (Ok Demo.finished)) Demo.idle =
  (Demo.idle, Raise (HTTPError 404 "No such kernel k9")).
Proof. by vm_compute. Qed.

(** C10 on the idle demo server: a request that only names the kernel. *)
Lemma missing_ids_fail_the_assertion_holds :
  read_code_from_ipynb Demo.get_path (Demo.index None) None Demo.idle =
    (Demo.idle, Ok None) ∧
  mimic_post Demo.index Demo.get_path (Model "k1" None None false None None)
    (Run [] (Ok Demo.finished)) Demo.idle =
  (Demo.idle, Raise AssertionError).
Proof.
  apply (missing_ids_fail_the_assertion Demo.index Demo.get_path
           (Model "k1" None None false None None)).
  - apply (bool_decide_unpack _). vm_compute. exact I.
  - apply ledger_wf_empty.
  - reflexivity.
  - reflexivity.
Defined.

(** ** Claims the code breaks *)

(** C1 (code defect in [post_execute]).  The ledger is meant to hold a record
    for a triple exactly while the cell executes, one per triple, and to drop
    it when the execution finishes even if partial results were recorded.
    Here cell [c1] is posted, the kernel streams one output and finishes:
    the record is still in the ledger afterwards although nothing executes,
    [is_executing] answers false for it, and posting the cell again leaves
    two records for the same triple. *)
Theorem record_survives_streamed_execution :
  let kr := Run [Demo.streamed] (Ok Demo.finished) in
  let s1 := (mimic_post Demo.index Demo.get_path Demo.post_c1 kr Demo.idle).1 in
  let s2 := (mimic_post Demo.index Demo.get_path Demo.post_c1 kr s1).1 in
  let leaked := Rec (Some "doc-1") (Some "c1") "1" (Some 1) in
  tracked (executing_cell s1) "k1" (Some "doc-1") (Some "c1") leaked ∧
  executing_cell s1 !! "k1" = Some [leaked] ∧
  is_executing (executing_cell s1) "k1" (Some "doc-1") (Some "c1") = false ∧
  executing_cell s2 !! "k1" = Some [leaked; leaked].
Proof.
  split; [|by vm_compute].
  split; [|done]. apply (bool_decide_unpack _). vm_compute. exact I.
Qed.

(** C2 (code defect in [write_output]).  Applying the same result twice is
    meant to write the notebook at most once.  With a result whose execution
    count is 1, the second application finds the stored outputs and count
    equal to the new ones and still raises [updated]: the notebook is saved
    and announced a second time, with the same cells. *)
Theorem write_output_saves_again :
  let once := write_output Demo.get_path (Some "doc-1") (Some "c1")
                Demo.finished Demo.idle in
  let twice := write_output Demo.get_path (Some "doc-1") (Some "c1")
                 Demo.finished once.1 in
  let cells := [Cell "c0" "x = 1" (Some []) None;
                Cell "c1" "print(x)" (Some [Output "1"]) (Some 1)] in
  once.2 = Ok true ∧
  contents once.1 !! "nb.ipynb" = Some cells ∧
  twice.2 = Ok true ∧
  contents twice.1 = contents once.1 ∧
  trace twice.1 =
    (trace once.1 ++
     [Save "nb.ipynb" cells; FileIdSave "nb.ipynb"; WriteMessage cells])%list.
Proof. by vm_compute. Qed.

(** C3 (code defect in [mimic_post] and [update_execute_result]).  A request
    with [block = true] and inline code but no path and no cell id is meant
    to return the execution result.  On a kernel that has no ledger entry
    the request ends in [KeyError] after the kernel ran; on a kernel that
    has one, the response is [post_block] with an empty payload, which holds
    no result.  No notebook is written and the ledger is as before. *)
Theorem blocking_inline_request_returns_no_result :
  let kr := Run [] (Ok Demo.finished) in
  mimic_post Demo.index Demo.get_path Demo.post_inline kr Demo.idle =
    (emit (Dispatch "k1" "1+1") Demo.idle, Raise (KeyError "k1")) ∧
  mimic_post Demo.index Demo.get_path Demo.post_inline kr Demo.used =
    (emit (Dispatch "k1" "1+1") Demo.used, Ok (Response "post_block" [])) ∧
  ¬ carries_result (Response "post_block" []) Demo.finished.
Proof.
  split; [by vm_compute|]. split; [by vm_compute|].
  intros [key Hin]. by apply elem_of_nil in Hin.
Qed.

(** C5 (code defect in [mimic_post]).  An explicit [block] flag is meant to
    win whether true or false.  The test is on the truthiness of the flag, so
    an explicit [block = false] without a path and a cell id is treated as an
    absent flag and the mode is forced to blocking. *)
Theorem explicit_block_false_is_overridden :
  let m := Model "k1" None None true (Some false) (Some "1+1") in
  block_mode m (Demo.index (path m)) = true.
Proof. reflexivity. Qed.

(** C6 (code defect in [update_execute_result]).  An update for a record
    that is no longer tracked is meant to be a no-op that never raises.
    When the ledger has no entry at all for the kernel, the update raises
    [KeyError]. *)
Theorem stale_update_raises_without_entry :
  update_execute_result Demo.streamed "k1" (Some "c1") false Demo.idle =
    (Demo.idle, Raise (KeyError "k1")).
Proof. by vm_compute. Qed.

(** C8 (code defect in [post_execute], the one of C1).  The ledger record is
    meant to be removed on every exit path.  Here the kernel streams one
    output and [client.execute] raises: the [finally] block runs and
    releases the watcher, but the record, which now holds the streamed
    output, is not found by [post_execute] and stays in the ledger. *)
Theorem record_survives_failed_execution :
  let kr := Run [Demo.streamed] (Raise (KernelFailure "interrupted")) in
  let out := mimic_post Demo.index Demo.get_path Demo.post_c1 kr Demo.idle in
  out.2 = Raise (KernelFailure "interrupted") ∧
  watching out.1 = false ∧
  executing_cell out.1 !! "k1" = Some [Rec (Some "doc-1") (Some "c1") "1" None].
Proof. by vm_compute. Qed.

(** ** The duplicate check under concurrent requests *)

(** [mimic_post] is its stretches in order: the checks, the code, and the
    execution with the response. *)
Lemma mimic_post_stretches index get_path m kr s :
  mimic_post index get_path m kr s =
  (let* checked := check_request index m in
   match checked with
   | Some resp => ret resp
   | None =>
       let* src := fetch_code index get_path m in
       answer_request index get_path m src kr
   end) s.
Proof.
  unfold mimic_post, check_request, fetch_code, answer_request.
  unfold bind, get_state, ret, raise.
  destruct (negb (bool_decide (kernel_id m ∈ kernels s))); [done|].
  destruct (is_executing _ _ _ _); [done|].
  destruct (truthy (code m)).
  - by destruct (code m).
  - by destruct (read_code_from_ipynb get_path _ _ s) as [s' [[src|]|e]].
Qed.

(** [execute] starts with [begin_execute]; what follows is the kernel's
    run with the callbacks, the cleanup and the final update. *)
Lemma execute_from_begin cb kr k src d cid s :
  execute cb kr k src d cid s =
  (let* r := try_finally
               (match cb with
                | Some f => run_callbacks f (partials kr)
                | None => ret tt
                end ;;; λ s', (s', final kr))
               (post_execute k d cid) in
   update_execute_result r k cid true ;;; ret r)
    (begin_execute k src d cid s).1.
Proof.
  unfold execute, begin_execute, pre_execute, client_execute.
  by destruct (truthy d && truthy cid).
Qed.

(** [Demo.streaming] is a state the request [Demo.post_c1] goes through:
    on the idle server, with a kernel that streams [Demo.streamed] first,
    what is left of the request there is the rest of the kernel's run, the
    cleanup, the final update and the response. *)
Lemma post_c1_reaches_streaming snapshots fin :
  mimic_post Demo.index Demo.get_path Demo.post_c1
    (Run (Demo.streamed :: snapshots) fin) Demo.idle =
  ((let* r := try_finally
                (run_callbacks
                   (write_callback Demo.get_path "k1" (Some "doc-1") (Some "c1"))
                   snapshots ;;; λ s', (s', fin))
                (post_execute "k1" (Some "doc-1") (Some "c1")) in
    update_execute_result r "k1" (Some "c1") true ;;; ret r) ;;;
   ret (Response "post" [("model", VModel Demo.post_c1)])) Demo.streaming.
Proof. reflexivity. Qed.

(** C4 (code defect in [mimic_post]).  The duplicate check and the
    registration are meant to be one atomic step, so that two executions of
    one cell on one kernel never run together.

    First, while the request [Demo.post_c1] awaits the kernel and the client
    has reported one streamed result ([Demo.streaming]), its record is in
    the ledger but differs from the fresh record, so [is_executing] is
    false: a second request for the same kernel, document and cell is
    answered [post], not [executing]; it registers a second record beside
    the first and sends its code to the kernel.

    Second, a request without inline code awaits [read_code_from_ipynb]
    between the check and the registration, and that call leaves the ledger
    as it is.  In [Demo.interleaved] a second request for the cell is
    checked during this await: both checks pass, both requests register,
    and the code is sent to the kernel twice.  [write_output] holds
    [save_lock] from its read to its save; the check and the registration
    have no such guard. *)
Theorem duplicate_check_is_not_atomic :
  let k := "k1" in
  let d := Some "doc-1" in
  let cid := Some "c1" in
  let sent := Dispatch k "print(x)" in
  (* a second request while the first awaits the kernel *)
  tracked (executing_cell Demo.streaming) k d cid (Rec d cid "1" None) ∧
  head (trace Demo.streaming) = Some sent ∧
  is_executing (executing_cell Demo.streaming) k d cid = false ∧
  records_of (executing_cell (begin_execute k "print(x)" d cid Demo.streaming).1) k =
    [Rec d cid "1" None; get_record d cid] ∧
  (let again := mimic_post Demo.index Demo.get_path Demo.post_c1
                  (Run [] (Ok Demo.finished)) Demo.streaming in
   again.2 = Ok (Response "post" [("model", VModel Demo.post_c1)]) ∧
   trace again.1 = (trace Demo.streaming ++ [sent])%list) ∧
  (* a second request while the first awaits its code *)
  (let both := Demo.interleaved Demo.idle in
   both.2 = Ok (None, None) ∧
   records_of (executing_cell both.1) k = [get_record d cid; get_record d cid] ∧
   trace both.1 = [sent; sent]).
Proof.
  simpl. split; [|by vm_compute].
  split; [|done]. apply (bool_decide_unpack _). vm_compute. exact I.
Qed.

(** ** Properties stable under the handler's steps *)

(** A property of the state that survives a new list of records for kernel
    [k], a change of the watcher flag and a new event survives every ledger
    operation on [k] and every execution on [k]. *)
Section StableLedger.

Variable P : state → Prop.
Variable k : string.
Hypothesis P_ledger : ∀ s recs, P s → P (set_executing_cell (insert k recs) s).
Hypothesis P_watching : ∀ s b, P s → P (set_watching b s).
Hypothesis P_emit : ∀ s e, P s → P (emit e s).

Lemma stable_update r cid fin : keeps P (update_execute_result r k cid fin).
Proof.
  intros s Hs. unfold update_execute_result.
  destruct (executing_cell s !! k) as [recs|]; simpl; [|done].
  by apply P_ledger.
Qed.

Lemma stable_pre d cid : keeps P (pre_execute k d cid).
Proof.
  unfold pre_execute. destruct (truthy d && truthy cid); [|apply keeps_ret].
  apply keeps_bind.
  - apply keeps_modify. intros s Hs.
    by apply (P_ledger s (records_of (executing_cell s) k ++ [get_record d cid])%list).
  - intros _. apply keeps_modify. intros s Hs. by apply P_watching.
Qed.

Lemma stable_post d cid : keeps P (post_execute k d cid).
Proof.
  unfold post_execute. destruct (truthy d && truthy cid); [|apply keeps_ret].
  apply keeps_bind.
  - apply keeps_modify. intros s Hs. by apply P_watching.
  - intros _. apply keeps_modify. intros s Hs.
    destruct (bool_decide (get_record d cid ∈ records_of (executing_cell s) k)) eqn:Hin.
    + pose proof (P_ledger s (remove_first (get_record d cid)
                                 (records_of (executing_cell s) k)) Hs) as HP.
      unfold set_executing_cell in *. by rewrite Hin.
    + unfold set_executing_cell. rewrite Hin. by destruct s.
Qed.

Lemma stable_run_callbacks cb snapshots :
  (∀ r, keeps P (cb r)) → keeps P (run_callbacks cb snapshots).
Proof.
  intros Hcb. induction snapshots as [|r snapshots IH]; simpl.
  - apply keeps_ret.
  - apply keeps_bind; [apply Hcb|]. by intros _.
Qed.

Lemma stable_client_execute cb kr src :
  (∀ f, cb = Some f → ∀ r, keeps P (f r)) →
  keeps P (client_execute cb kr k src).
Proof.
  intros Hcb. unfold client_execute.
  apply keeps_bind; [apply keeps_modify; intros s Hs; by apply P_emit|].
  intros _. apply keeps_bind; [|by intros _ s Hs].
  destruct cb as [f|]; [|apply keeps_ret].
  apply stable_run_callbacks. by apply Hcb.
Qed.

Lemma stable_execute cb kr src d cid :
  (∀ f, cb = Some f → ∀ r, keeps P (f r)) →
  keeps P (execute cb kr k src d cid).
Proof.
  intros Hcb. unfold execute.
  apply keeps_bind; [apply stable_pre|]. intros _.
  apply keeps_bind.
  - apply keeps_try_finally; [by apply stable_client_execute|apply stable_post].
  - intros r. apply keeps_bind; [apply stable_update|].
    intros _. apply keeps_ret.
Qed.

End StableLedger.

(** If the property also survives a notebook being replaced, it survives the
    whole request; and a request with [not_write] does not need that. *)
Section StableHandler.

Variable index : option string → option string.
Variable get_path : option string → string.
Variable P : state → Prop.
Variable m : model.
Hypothesis P_ledger :
  ∀ s recs, P s → P (set_executing_cell (insert (kernel_id m) recs) s).
Hypothesis P_watching : ∀ s b, P s → P (set_watching b s).
Hypothesis P_emit : ∀ s e, P s → P (emit e s).

Lemma stable_read_code d cid : keeps P (read_code_from_ipynb get_path d cid).
Proof. intros s Hs. by rewrite read_code_from_ipynb_state. Qed.

Lemma stable_mimic_post_silent kr :
  not_write m = true → keeps P (mimic_post index get_path m kr).
Proof.
  intros Hnw. unfold mimic_post. rewrite Hnw. simpl.
  apply keeps_bind; [apply keeps_get_state|]. intros s0.
  destruct (negb _); [apply keeps_raise|].
  destruct (is_executing _ _ _ _); [apply keeps_ret|].
  apply keeps_bind.
  { destruct (truthy (code m)); [apply keeps_ret|apply stable_read_code]. }
  intros [src|]; [|apply keeps_raise].
  destruct (negb (block_mode m (index (path m)))).
  - apply keeps_bind; [|intros _; apply keeps_ret].
    by apply stable_execute.
  - apply keeps_bind; [by apply stable_execute|]. intros r.
    apply keeps_bind; [apply keeps_ret|]. intros _. apply keeps_ret.
Qed.

Hypothesis P_contents : ∀ s file cells, P s → P (set_contents (insert file cells) s).

Lemma stable_write_output d cid r : keeps P (write_output get_path d cid r).
Proof.
  unfold write_output.
  destruct (negb (truthy d) || negb (truthy cid)); [apply keeps_ret|].
  apply keeps_bind; [intros s Hs; by rewrite cm_get_state|]. intros cells.
  destruct (apply_result cid r cells) as [[cells' [|]]|e];
    [|apply keeps_ret|apply keeps_raise].
  apply keeps_bind.
  { apply keeps_modify. intros s Hs. apply P_emit. by apply P_contents. }
  intros _. apply keeps_bind; [apply keeps_modify; intros s Hs; by apply P_emit|].
  intros _. apply keeps_bind; [apply keeps_modify; intros s Hs; by apply P_emit|].
  intros _. apply keeps_ret.
Qed.

Lemma stable_write_callback d cid r :
  keeps P (write_callback get_path (kernel_id m) d cid r).
Proof.
  apply keeps_try_except.
  - apply keeps_bind; [by apply stable_update|]. intros _.
    apply keeps_bind; [apply stable_write_output|]. intros _. apply keeps_ret.
  - intros e. apply keeps_modify. intros s Hs. by apply P_emit.
Qed.

Lemma stable_mimic_post kr : keeps P (mimic_post index get_path m kr).
Proof.
  unfold mimic_post.
  apply keeps_bind; [apply keeps_get_state|]. intros s0.
  destruct (negb _); [apply keeps_raise|].
  destruct (is_executing _ _ _ _); [apply keeps_ret|].
  apply keeps_bind.
  { destruct (truthy (code m)); [apply keeps_ret|apply stable_read_code]. }
  intros [src|]; [|apply keeps_raise].
  destruct (negb (block_mode m (index (path m)))).
  - apply keeps_bind; [|intros _; apply keeps_ret].
    apply stable_execute; try done. intros f Hf r.
    destruct (negb (not_write m)); [|done].
    injection Hf as <-. apply stable_write_callback.
  - apply keeps_bind; [by apply stable_execute|]. intros r.
    apply keeps_bind; [|intros _; apply keeps_ret].
    destruct (negb (not_write m)); [|apply keeps_ret].
    apply keeps_bind; [apply stable_write_output|]. intros _. apply keeps_ret.
Qed.

End StableHandler.

(** ** More on the ledger *)

Lemma update_execute_result_outside r k cid fin s :
  let s' := (update_execute_result r k cid fin s).1 in
  kernels s' = kernels s ∧ contents s' = contents s ∧
  watching s' = watching s ∧ trace s' = trace s.
Proof.
  unfold update_execute_result. by destruct (executing_cell s !! k).
Qed.

(** A finished or partial update never adds, removes or reorders the records
    of the kernel, and never changes which document and cell a record is
    for: it only rewrites outputs and counts. *)
Theorem update_execute_result_keeps_keys r k cid fin s recs :
  executing_cell s !! k = Some recs →
  ∃ recs',
    (update_execute_result r k cid fin s).2 = Ok tt ∧
    executing_cell (update_execute_result r k cid fin s).1 !! k = Some recs' ∧
    record_key <$> recs' = record_key <$> recs.
Proof.
  intros Hk. unfold update_execute_result. rewrite Hk. simpl.
  eexists. split; [done|]. split; [apply lookup_insert_eq|].
  rewrite <- list_fmap_compose. apply list_fmap_ext. intros i rec _. simpl.
  unfold record_key. by destruct (update_record_ids r cid fin rec) as [-> ->].
Qed.

Lemma update_execute_result_keeps_keys_holds :
  ∃ recs',
    (update_execute_result Demo.streamed "k1" (Some "c1") false (Demo.in_flight "c1")).2
      = Ok tt ∧
    executing_cell
      (update_execute_result Demo.streamed "k1" (Some "c1") false (Demo.in_flight "c1")).1
      !! "k1" = Some recs' ∧
    record_key <$> recs' = record_key <$> [get_record (Some "doc-1") (Some "c1")].
Proof.
  apply update_execute_result_keeps_keys. vm_compute. reflexivity.
Defined.

(** With an entry for the kernel but no record of that cell, an update
    changes nothing and does not raise. *)
Lemma update_execute_result_no_match_holds :
  update_execute_result Demo.streamed "k1" (Some "c1") false (Demo.in_flight "c0") =
    (Demo.in_flight "c0", Ok tt).
Proof.
  apply (update_execute_result_no_match _ _ _ _ _ [get_record (Some "doc-1") (Some "c0")]).
  - vm_compute. reflexivity.
  - intros rec ->%list_elem_of_singleton. discriminate.
Defined.

(** After [pre_execute] with a document id and a cell id, the cell is
    reported as executing on that kernel and the handler is registered with
    the file watcher. *)
Theorem pre_execute_registers k d cid s :
  truthy d = true → truthy cid = true →
  let s' := (pre_execute k d cid s).1 in
  is_executing (executing_cell s') k d cid = true ∧ watching s' = true.
Proof.
  intros Hd Hc. unfold pre_execute. rewrite Hd, Hc. simpl. split; [|done].
  apply is_executing_true. rewrite records_of_insert.
  apply elem_of_app. right. by apply list_elem_of_singleton.
Qed.

Lemma pre_execute_registers_holds :
  is_executing (executing_cell (pre_execute "k1" (Some "doc-1") (Some "c1") Demo.idle).1)
    "k1" (Some "doc-1") (Some "c1") = true ∧
  watching (pre_execute "k1" (Some "doc-1") (Some "c1") Demo.idle).1 = true.
Proof. apply pre_execute_registers; reflexivity. Defined.

Lemma execute_silent_failure_holds :
  let out := execute None (Run [Demo.streamed] (Raise (KernelFailure "interrupted")))
               "k1" "print(x)" (Some "doc-1") (Some "c1") Demo.idle in
  out.2 = Raise (KernelFailure "interrupted") ∧
  records_of (executing_cell out.1) "k1" = records_of (executing_cell Demo.idle) "k1" ∧
  watching out.1 = false.
Proof. apply execute_silent_failure; reflexivity. Defined.

Lemma execute_silent_success_holds :
  let out := execute None (Run [] (Ok Demo.finished))
               "k1" "print(x)" (Some "doc-1") (Some "c1") Demo.idle in
  out.2 = Ok Demo.finished ∧
  records_of (executing_cell out.1) "k1" =
    update_record Demo.finished (Some "c1") true <$> records_of (executing_cell Demo.idle) "k1" ∧
  watching out.1 = false.
Proof. apply execute_silent_success; reflexivity. Defined.

(** ** What a request leaves alone *)

(** A post request never touches the ledger entry of a kernel other than
    the one it names, whatever the kernel client does. *)
Theorem mimic_post_other_kernels index get_path m kr s k' :
  k' ≠ kernel_id m →
  executing_cell (mimic_post index get_path m kr s).1 !! k' = executing_cell s !! k'.
Proof.
  intros Hne.
  apply (stable_mimic_post index get_path
           (λ s', executing_cell s' !! k' = executing_cell s !! k') m); try done.
  intros s' recs Hs'. simpl. by rewrite lookup_insert_ne.
Qed.

Lemma mimic_post_other_kernels_holds :
  let s := State {["k2" := [get_record (Some "doc-1") (Some "c0")]]} {["k1"; "k2"]}
             {["nb.ipynb" := Demo.notebook]} true [] in
  executing_cell
    (mimic_post Demo.index Demo.get_path Demo.post_c1
       (Run [Demo.streamed] (Ok Demo.finished)) s).1 !! "k2" =
  executing_cell s !! "k2".
Proof. intros s. apply mimic_post_other_kernels. discriminate. Defined.

(** A post request with [not_write] never changes a notebook of the
    contents manager, in either mode and whatever the kernel client does. *)
Theorem mimic_post_not_write_keeps_notebooks index get_path m kr s :
  not_write m = true →
  contents (mimic_post index get_path m kr s).1 = contents s.
Proof.
  intros Hnw.
  by apply (stable_mimic_post_silent index get_path
              (λ s', contents s' = contents s) m).
Qed.

Lemma mimic_post_not_write_keeps_notebooks_holds :
  contents
    (mimic_post Demo.index Demo.get_path
       (Model "k1" (Some "nb.ipynb") (Some "c1") true None None)
       (Run [Demo.streamed] (Ok Demo.finished)) Demo.idle).1 =
  contents Demo.idle.
Proof. apply mimic_post_not_write_keeps_notebooks. reflexivity. Defined.

(** Starting from a ledger whose records all have a document id and a cell
    id, a post request leaves such a ledger, whatever the request and
    whatever the kernel client does. *)
Theorem mimic_post_preserves_ledger_wf index get_path m kr s :
  ledger_wf (executing_cell s) →
  ledger_wf (executing_cell (mimic_post index get_path m kr s).1).
Proof. apply mimic_post_wf. Qed.

Lemma mimic_post_preserves_ledger_wf_holds :
  ledger_wf (executing_cell
    (mimic_post Demo.index Demo.get_path Demo.post_c1
       (Run [Demo.streamed] (Ok Demo.finished)) Demo.idle).1).
Proof. apply mimic_post_preserves_ledger_wf. apply ledger_wf_empty. Defined.

(** ** More on the notebook writer *)

Lemma apply_result_keys cid r cells cells' u :
  apply_result cid r cells = Ok (cells', u) →
  cell_key <$> cells' = cell_key <$> cells.
Proof.
  revert cells' u. induction cells as [|c cells IH]; intros cells' u;
    cbn [apply_result].
  - by intros [= <- <-].
  - destruct (decide (Some (c_id c) = cid)).
    + destruct (c_outputs c) as [stored|]; [|done].
      intros [= <- <-]. by rewrite !fmap_cons.
    + destruct (apply_result cid r cells) as [[cells1 u1]|e]; [|done].
      intros [= <- <-]. rewrite !fmap_cons. f_equal. by apply (IH _ u1).
Qed.

Lemma find_cell_same_keys cid cells1 cells2 :
  cell_key <$> cells1 = cell_key <$> cells2 →
  c_source <$> find_cell cid cells1 = c_source <$> find_cell cid cells2.
Proof.
  revert cells2. induction cells1 as [|c1 cells1 IH]; intros [|c2 cells2] Hkeys;
    try done.
  rewrite !fmap_cons in Hkeys.
  assert (c_id c1 = c_id c2 ∧ c_source c1 = c_source c2 ∧
          cell_key <$> cells1 = cell_key <$> cells2)
    as (Hid & Hsrc & Htail) by (injection Hkeys; intros; by repeat split).
  simpl. rewrite Hid.
  destruct (decide (Some (c_id c2) = cid)); simpl; [by rewrite Hsrc|].
  by apply IH.
Qed.

(** The first cell with the id has outputs: the loop succeeds and stores
    the result in it. *)
Lemma apply_result_found cid r cells c stored :
  find_cell cid cells = Some c →
  c_outputs c = Some stored →
  ∃ cells',
    apply_result cid r cells =
      Ok (cells', bool_decide (outputs r ≠ stored) ||
                  truthy_count (execution_count r)) ∧
    find_cell cid cells' =
      Some (Cell (c_id c) (c_source c) (Some (outputs r))
                 (if truthy_count (execution_count r)
                  then execution_count r else c_execution_count c)).
Proof.
  induction cells as [|c0 cells IH]; simpl; [done|].
  destruct (decide (Some (c_id c0) = cid)) as [Heq|Hne].
  - intros [= <-] Hstored. rewrite Hstored. eexists. split; [done|]. simpl.
    rewrite decide_True by done.
    destruct (outputs_settled (outputs r) stored) as [Hst _].
    simpl in Hst. by rewrite Hst.
  - intros Hfind Hstored. destruct (IH Hfind Hstored) as (cells' & -> & Hcell).
    eexists. split; [done|]. simpl. by rewrite decide_False by done.
Qed.

(** The first cell with the id has no outputs: the loop raises. *)
Lemma apply_result_without_outputs cid r cells c :
  find_cell cid cells = Some c →
  c_outputs c = None →
  apply_result cid r cells = Raise (KeyError "outputs").
Proof.
  induction cells as [|c0 cells IH]; simpl; [done|].
  destruct (decide (Some (c_id c0) = cid)) as [Heq|Hne].
  - intros [= <-] Hnone. by rewrite Hnone.
  - intros Hfind Hnone. by rewrite (IH Hfind Hnone).
Qed.


(** The ways [write_output] can end. *)
Lemma write_output_cases get_path d cid r s :
  write_output get_path d cid r s = (s, Ok false) ∨
  (∃ e, write_output get_path d cid r s = (s, Raise e)) ∨
  (∃ cells cells',
     contents s !! get_path d = Some cells ∧
     apply_result cid r cells = Ok (cells', true) ∧
     write_output get_path d cid r s =
       (emit (WriteMessage cells')
          (emit (FileIdSave (get_path d))
             (emit (Save (get_path d) cells')
                (set_contents (insert (get_path d) cells') s))),
        Ok true)).
Proof.
  rewrite write_output_run.
  destruct (negb (truthy d) || negb (truthy cid)); [by left|].
  destruct (contents s !! get_path d) as [cells|] eqn:Hnb;
    [|right; left; by eexists].
  destruct (apply_result cid r cells) as [[cells' [|]]|e] eqn:Hap.
  - right; right. by exists cells, cells'.
  - by left.
  - right; left. by eexists.
Qed.

(** [write_output] never adds, removes or reorders the cells of a notebook
    and never changes the id or the source of a cell, in any notebook. *)
Theorem write_output_keeps_cell_keys get_path d cid r s file :
  fmap cell_key <$> (contents (write_output get_path d cid r s).1 !! file) =
  fmap cell_key <$> (contents s !! file).
Proof.
  destruct (write_output_cases get_path d cid r s)
    as [-> | [[e ->] | (cells & cells' & Hnb & Hap & ->)]]; try done.
  simpl. destruct (decide (get_path d = file)) as [<-|Hne].
  - rewrite lookup_insert_eq, Hnb. simpl. by rewrite (apply_result_keys _ _ _ _ _ Hap).
  - by rewrite lookup_insert_ne.
Qed.



(** Once a [write_output] returned, writing the same result again leaves
    every notebook as the first call left it. *)
Theorem write_output_twice_same_contents get_path d cid r s s1 u :
  write_output get_path d cid r s = (s1, Ok u) →
  contents (write_output get_path d cid r s1).1 = contents s1.
Proof.
  intros Hfirst.
  destruct (write_output_again get_path d cid r s s1 u Hfirst)
    as (s2 & u2 & cells & -> & Hsame & _). done.
Qed.

Lemma write_output_twice_same_contents_holds :
  contents
    (write_output Demo.get_path (Some "doc-1") (Some "c1") Demo.finished
       (write_output Demo.get_path (Some "doc-1") (Some "c1") Demo.finished Demo.idle).1).1 =
  contents
    (write_output Demo.get_path (Some "doc-1") (Some "c1") Demo.finished Demo.idle).1.
Proof.
  apply (write_output_twice_same_contents _ _ _ _ Demo.idle _ true).
  vm_compute. reflexivity.
Defined.

(** A cell without the key ['outputs'] (a markdown or raw cell) cannot be
    written: [write_output] raises [KeyError] at the comparison of the
    outputs and leaves the state as it was. *)
Lemma write_output_without_outputs get_path d cid r s cells c :
  truthy d = true → truthy cid = true →
  contents s !! get_path d = Some cells →
  find_cell cid cells = Some c →
  c_outputs c = None →
  write_output get_path d cid r s = (s, Raise (KeyError "outputs")).
Proof.
  intros Hd Hc Hnb Hfind Hnone. rewrite write_output_run, Hd, Hc, Hnb. simpl.
  by rewrite (apply_result_without_outputs cid r cells c).
Qed.

(** When the notebook has a cell with the given id and that cell has
    outputs (a code cell), after [write_output] the first such cell holds
    the outputs of the result, and its execution count when that is truthy;
    the call reports a change exactly when the outputs differed or the count
    is truthy. *)
Theorem write_output_stores_result get_path d cid r s cells c stored :
  truthy d = true → truthy cid = true →
  contents s !! get_path d = Some cells →
  find_cell cid cells = Some c →
  c_outputs c = Some stored →
  let out := write_output get_path d cid r s in
  ∃ cells',
    contents out.1 !! get_path d = Some cells' ∧
    find_cell cid cells' =
      Some (Cell (c_id c) (c_source c) (Some (outputs r))
                 (if truthy_count (execution_count r)
                  then execution_count r else c_execution_count c)) ∧
    out.2 = Ok (bool_decide (outputs r ≠ stored) ||
                truthy_count (execution_count r)).
Proof.
  intros Hd Hc Hnb Hfind Hstored. simpl.
  destruct (apply_result_found cid r cells c stored Hfind Hstored)
    as (cells' & Hap & Hcell).
  rewrite write_output_run, Hd, Hc, Hnb, Hap. simpl.
  destruct (bool_decide (outputs r ≠ stored) || truthy_count (execution_count r))
    eqn:Hflag.
  - exists cells'. simpl. by rewrite lookup_insert_eq.
  - exists cells'.
    pose proof (apply_result_unflagged _ _ _ _ Hap) as Hsame. by subst cells'.
Qed.

Lemma write_output_stores_result_holds :
  let out := write_output Demo.get_path (Some "doc-1") (Some "c1")
               Demo.finished Demo.idle in
  ∃ cells',
    contents out.1 !! Demo.get_path (Some "doc-1") = Some cells' ∧
    find_cell (Some "c1") cells' =
      Some (Cell "c1" "print(x)" (Some [Output "1"]) (Some 1)) ∧
    out.2 = Ok true.
Proof.
  apply (write_output_stores_result Demo.get_path (Some "doc-1") (Some "c1")
           Demo.finished Demo.idle Demo.notebook
           (Cell "c1" "print(x)" (Some []) None) []);
    reflexivity.
Defined.

(** Writing a result never changes what [read_code_from_ipynb] answers, for
    any document and cell: the code of a cell is not touched by the outputs
    written next to it. *)
Theorem read_code_after_write_output get_path d cid r d' cid' s :
  (read_code_from_ipynb get_path d' cid' (write_output get_path d cid r s).1).2 =
  (read_code_from_ipynb get_path d' cid' s).2.
Proof.
  destruct (write_output_cases get_path d cid r s)
    as [-> | [[e ->] | (cells & cells' & Hnb & Hap & ->)]]; try done.
  unfold read_code_from_ipynb.
  destruct (negb (truthy d') || negb (truthy cid')); [done|].
  unfold bind, cm_get. simpl.
  destruct (decide (get_path d = get_path d')) as [<-|Hne].
  - rewrite lookup_insert_eq, Hnb.
    pose proof (find_cell_same_keys cid' _ _ (apply_result_keys _ _ _ _ _ Hap)) as Hsrc.
    destruct (find_cell cid' cells'), (find_cell cid' cells);
      simpl in *; try done.
    congruence.
  - rewrite lookup_insert_ne by done.
    destruct (contents s !! get_path d') as [cells0|]; simpl; [|done].
    by destruct (find_cell cid' cells0).
Qed.

(** ** Responses and replies *)

(** What a returned response tells about the request. *)
Lemma mimic_post_cases index get_path m kr s s' resp :
  mimic_post index get_path m kr s = (s', Ok resp) →
  kernel_id m ∈ kernels s ∧
  ((is_executing (executing_cell s) (kernel_id m) (index (path m)) (cell_id m) = true ∧
    s' = s ∧ resp = Response "executing" [("model", VModel m)]) ∨
   (is_executing (executing_cell s) (kernel_id m) (index (path m)) (cell_id m) = false ∧
    block_mode m (index (path m)) = false ∧
    resp = Response "post" [("model", VModel m)]) ∨
   (is_executing (executing_cell s) (kernel_id m) (index (path m)) (cell_id m) = false ∧
    block_mode m (index (path m)) = true ∧
    resp = Response "post_block" [])).
Proof.
  unfold mimic_post. unfold bind at 1. unfold get_state.
  destruct (bool_decide (kernel_id m ∈ kernels s)) eqn:Hk; simpl; [|done].
  apply bool_decide_eq_true in Hk. intros Hrun. split; [done|].
  destruct (is_executing _ _ _ _) eqn:Hexec.
  { injection Hrun as <- <-. by left. }
  right. unfold bind at 1 in Hrun.
  destruct ((if truthy (code m) then ret (code m)
             else read_code_from_ipynb get_path (index (path m)) (cell_id m)) s)
    as [s1 [[src|]|e]]; try done.
  destruct (block_mode m (index (path m))); simpl in Hrun.
  - right. unfold bind at 1 in Hrun.
    destruct (execute _ _ _ _ _ _ s1) as [s2 [r|e]]; [|done].
    unfold bind at 1 in Hrun.
    match type of Hrun with
    | context [let (_, _) := ?step in _] => destruct step as [s3 [[]|e]]; [|done]
    end.
    by injection Hrun as <- <-.
  - left. unfold bind at 1 in Hrun.
    destruct (execute _ _ _ _ _ _ s1) as [s2 [r|e]]; [|done].
    by injection Hrun as <- <-.
Qed.

(** A response of [mimic_post] is one of three: [executing] with the request
    model and an untouched state when the cell is reported as executing;
    otherwise [post] with the request model in asynchronous mode and
    [post_block] with an empty payload in blocking mode. *)
Theorem mimic_post_response_shape index get_path m kr s s' resp :
  mimic_post index get_path m kr s = (s', Ok resp) →
  resp =
    (if is_executing (executing_cell s) (kernel_id m) (index (path m)) (cell_id m)
     then Response "executing" [("model", VModel m)]
     else if block_mode m (index (path m))
     then Response "post_block" []
     else Response "post" [("model", VModel m)]) ∧
  (is_executing (executing_cell s) (kernel_id m) (index (path m)) (cell_id m) = true →
   s' = s).
Proof.
  intros Hrun.
  destruct (mimic_post_cases _ _ _ _ _ _ _ Hrun)
    as [_ [(-> & -> & ->) | [(-> & -> & ->) | (-> & -> & ->)]]]; by split.
Qed.

Lemma mimic_post_response_shape_holds :
  Response "post" [("model", VModel Demo.post_c1)] =
    (if is_executing (executing_cell Demo.idle) (kernel_id Demo.post_c1)
          (Demo.index (path Demo.post_c1)) (cell_id Demo.post_c1)
     then Response "executing" [("model", VModel Demo.post_c1)]
     else if block_mode Demo.post_c1 (Demo.index (path Demo.post_c1))
     then Response "post_block" []
     else Response "post" [("model", VModel Demo.post_c1)]) ∧
  (is_executing (executing_cell Demo.idle) (kernel_id Demo.post_c1)
     (Demo.index (path Demo.post_c1)) (cell_id Demo.post_c1) = true →
   (mimic_post Demo.index Demo.get_path Demo.post_c1
      (Run [] (Ok Demo.finished)) Demo.idle).1 = Demo.idle).
Proof.
  apply (mimic_post_response_shape Demo.index Demo.get_path Demo.post_c1
           (Run [] (Ok Demo.finished)) Demo.idle).
  vm_compute. reflexivity.
Defined.

(** Over the connection the status of a post is lost: when the request is
    not in blocking mode, the reply [on_message] writes is the same
    [post_result] message with the request model, whether the cell was
    accepted for execution or reported as already executing. *)
Theorem on_message_post_reply index get_path m kr s s' reply :
  block_mode m (index (path m)) = false →
  on_message index get_path (EPost m) kr s = (s', Ok reply) →
  reply = Some (PostResult [("model", VModel m)]).
Proof.
  intros Hmode. unfold on_message, bind.
  destruct (mimic_post index get_path m kr s) as [s1 [resp|e]] eqn:Hrun; [|done].
  intros [= <- <-].
  destruct (mimic_post_cases _ _ _ _ _ _ _ Hrun)
    as [_ [(_ & _ & ->) | [(_ & _ & ->) | (_ & Hb & _)]]]; try done.
  by rewrite Hmode in Hb.
Qed.

Lemma on_message_post_reply_holds :
  let kr := Run [] (Ok Demo.finished) in
  let out := on_message Demo.index Demo.get_path (EPost Demo.post_c1) kr
               (Demo.in_flight "c1") in
  block_mode Demo.post_c1 (Demo.index (path Demo.post_c1)) = false ∧
  out = (Demo.in_flight "c1", Ok (Some (PostResult [("model", VModel Demo.post_c1)]))) ∧
  Some (PostResult [("model", VModel Demo.post_c1)]) =
  Some (PostResult [("model", VModel Demo.post_c1)]).
Proof.
  split; [reflexivity|]. split; [vm_compute; reflexivity|].
  apply (on_message_post_reply Demo.index Demo.get_path Demo.post_c1
           (Run [] (Ok Demo.finished)) (Demo.in_flight "c1") (Demo.in_flight "c1")).
  - reflexivity.
  - vm_compute. reflexivity.
Defined.

(** ** The course of an execution *)

Lemma pre_execute_outside k d cid s :
  let s' := (pre_execute k d cid s).1 in
  kernels s' = kernels s ∧ contents s' = contents s ∧ trace s' = trace s.
Proof. unfold pre_execute. by destruct (truthy d && truthy cid). Qed.

(** [execute] is [pre_execute], the dispatch, and then the rest. *)
Lemma execute_from_dispatch cb kr k src d cid s :
  execute cb kr k src d cid s =
  (let* r := try_finally
               (match cb with
                | Some f => run_callbacks f (partials kr)
                | None => ret tt
                end ;;; λ s', (s', final kr))
               (post_execute k d cid) in
   update_execute_result r k cid true ;;; ret r)
    (emit (Dispatch k src) (pre_execute k d cid s).1).
Proof.
  unfold execute, pre_execute, client_execute.
  by destruct (truthy d && truthy cid).
Qed.

Lemma bind_ret_state {A B} (m : M A) (b : B) s : (bind m (λ _, ret b) s).1 = (m s).1.
Proof. unfold bind, ret. by destruct (m s) as [s' [a|e]]. Qed.

(** The notebooks and the trace an execution leaves do not depend on what
    [client.execute] finally returns or raises. *)
Lemma execute_final_outside cb snapshots f1 f2 k src d cid s :
  let out1 := execute cb (Run snapshots f1) k src d cid s in
  let out2 := execute cb (Run snapshots f2) k src d cid s in
  contents out1.1 = contents out2.1 ∧ trace out1.1 = trace out2.1.
Proof.
  simpl. rewrite !execute_from_dispatch. simpl.
  set (s0 := emit (Dispatch k src) (pre_execute k d cid s).1).
  set (cbs := match cb with Some f => run_callbacks f snapshots | None => ret tt end).
  assert (∀ f, let out := (let* r := try_finally (cbs ;;; λ s', (s', f))
                                        (post_execute k d cid) in
                           update_execute_result r k cid true ;;; ret r) s0 in
               contents out.1 = contents (post_execute k d cid (cbs s0).1).1 ∧
               trace out.1 = trace (post_execute k d cid (cbs s0).1).1) as Hfinal.
  { intros f. unfold try_finally, bind, ret.
    destruct (cbs s0) as [s1 [[]|e]]; simpl.
    - destruct (post_execute k d cid s1) as [s2 [[]|e2]]; simpl; [|done].
      destruct f as [r|e]; [|done].
      destruct (update_execute_result_outside r k cid true s2) as (_ & Hc & _ & Ht).
      destruct (update_execute_result r k cid true s2) as [s3 [[]|e3]];
        simpl in *; by split.
    - by destruct (post_execute k d cid s1) as [s2 [[]|e2]]. }
  destruct (Hfinal f1) as [-> ->]. by destruct (Hfinal f2) as [-> ->].
Qed.

(** The state an asynchronous post request leaves. *)
Lemma mimic_post_async_state index get_path m kr s :
  block_mode m (index (path m)) = false →
  (mimic_post index get_path m kr s).1 =
  if negb (bool_decide (kernel_id m ∈ kernels s)) then s
  else if is_executing (executing_cell s) (kernel_id m) (index (path m)) (cell_id m)
  then s
  else
    match (if truthy (code m) then ret (code m)
           else read_code_from_ipynb get_path (index (path m)) (cell_id m)) s with
    | (s1, Ok (Some src)) =>
        (execute (if negb (not_write m)
                  then Some (write_callback get_path (kernel_id m)
                               (index (path m)) (cell_id m))
                  else None)
                 kr (kernel_id m) src (index (path m)) (cell_id m) s1).1
    | (s1, _) => s1
    end.
Proof.
  intros Hmode. unfold mimic_post. rewrite Hmode.
  unfold bind at 1. unfold get_state.
  destruct (negb (bool_decide (kernel_id m ∈ kernels s))); [done|].
  destruct (is_executing _ _ _ _); [done|].
  unfold bind at 1.
  destruct ((if truthy (code m) then ret (code m)
             else read_code_from_ipynb get_path (index (path m)) (cell_id m)) s)
    as [s1 [[src|]|e]]; try done.
  simpl. apply bind_ret_state.
Qed.

(** In asynchronous mode the notebooks and the trace a post request leaves
    do not depend on what [client.execute] returns or raises: only the
    snapshots handed to the callback are written, the final result is not. *)
Theorem mimic_post_async_ignores_final_result index get_path m snapshots f1 f2 s :
  block_mode m (index (path m)) = false →
  let out1 := mimic_post index get_path m (Run snapshots f1) s in
  let out2 := mimic_post index get_path m (Run snapshots f2) s in
  contents out1.1 = contents out2.1 ∧ trace out1.1 = trace out2.1.
Proof.
  intros Hmode. simpl. rewrite !mimic_post_async_state by done.
  destruct (negb (bool_decide (kernel_id m ∈ kernels s))); [done|].
  destruct (is_executing _ _ _ _); [done|].
  destruct ((if truthy (code m) then ret (code m)
             else read_code_from_ipynb get_path (index (path m)) (cell_id m)) s)
    as [s1 [[src|]|e]]; try done.
  apply execute_final_outside.
Qed.

Lemma mimic_post_async_ignores_final_result_holds :
  let out1 := mimic_post Demo.index Demo.get_path Demo.post_c1
                (Run [Demo.streamed] (Ok Demo.finished)) Demo.idle in
  let out2 := mimic_post Demo.index Demo.get_path Demo.post_c1
                (Run [Demo.streamed] (Raise (KernelFailure "interrupted"))) Demo.idle in
  contents out1.1 = contents out2.1 ∧ trace out1.1 = trace out2.1.
Proof. apply mimic_post_async_ignores_final_result. reflexivity. Defined.

(** ** What is dispatched *)

Lemma extends_ledger t s f : extends t s → extends t (set_executing_cell f s).
Proof. by intros [rest Hrest]; exists rest. Qed.

Lemma extends_watching t s b : extends t s → extends t (set_watching b s).
Proof. by intros [rest Hrest]; exists rest. Qed.

Lemma extends_contents t s f : extends t s → extends t (set_contents f s).
Proof. by intros [rest Hrest]; exists rest. Qed.

Lemma extends_emit t s e : extends t s → extends t (emit e s).
Proof.
  intros [rest Hrest]. exists (rest ++ [e])%list. simpl.
  by rewrite Hrest, app_assoc.
Qed.

Lemma bind_reaches {A B} (P : state → Prop) (m : M A) (k : A → M B) s :
  P (m s).1 → (∀ a, keeps P (k a)) → P (bind m k s).1.
Proof.
  intros Hm Hk. unfold bind. destruct (m s) as [s' [a|e]]; simpl in *; [|done].
  by apply Hk.
Qed.

Lemma write_callback_extends get_path t k d cid r :
  keeps (extends t) (write_callback get_path k d cid r).
Proof.
  apply keeps_try_except.
  - apply keeps_bind.
    { apply stable_update. intros s recs. apply extends_ledger. }
    intros _. apply keeps_bind; [|intros _; apply keeps_ret].
    apply (stable_write_output get_path (extends t)).
    + intros s e. apply extends_emit.
    + intros s file cells. apply extends_contents.
  - intros e. apply keeps_modify. intros s. apply extends_emit.
Qed.

(** Whatever follows, the first thing an execution adds to the trace is the
    dispatch of its code. *)
Lemma execute_extends cb kr k src d cid s :
  (∀ f, cb = Some f → ∀ r, keeps (extends (trace s ++ [Dispatch k src])) (f r)) →
  extends (trace s ++ [Dispatch k src]) (execute cb kr k src d cid s).1.
Proof.
  intros Hcb. rewrite execute_from_dispatch.
  set (t := (trace s ++ [Dispatch k src])%list) in *.
  assert (extends t (emit (Dispatch k src) (pre_execute k d cid s).1)) as Hstart.
  { exists []. simpl. destruct (pre_execute_outside k d cid s) as (_ & _ & ->).
    by rewrite app_nil_r. }
  revert Hstart. generalize (emit (Dispatch k src) (pre_execute k d cid s).1).
  apply keeps_bind.
  - apply keeps_try_finally.
    + apply keeps_bind; [|by intros _ s' Hs'].
      destruct cb as [f|]; [|apply keeps_ret].
      apply stable_run_callbacks. by apply Hcb.
    + apply stable_post.
      * intros s' recs. apply extends_ledger.
      * intros s' b. apply extends_watching.
  - intros r. apply keeps_bind; [|intros _; apply keeps_ret].
    apply stable_update. intros s' recs. apply extends_ledger.
Qed.

(** Once the code of an accepted request is known, the request dispatches
    exactly that code first. *)
Lemma mimic_post_extends index get_path m kr s src :
  kernel_id m ∈ kernels s →
  is_executing (executing_cell s) (kernel_id m) (index (path m)) (cell_id m) = false →
  (if truthy (code m) then ret (code m)
   else read_code_from_ipynb get_path (index (path m)) (cell_id m)) s
    = (s, Ok (Some src)) →
  extends (trace s ++ [Dispatch (kernel_id m) src])
          (mimic_post index get_path m kr s).1.
Proof.
  intros Hk Hfree Hsrc. unfold mimic_post. unfold bind at 1. unfold get_state.
  rewrite bool_decide_eq_true_2 by done. simpl. rewrite Hfree.
  unfold bind at 1. rewrite Hsrc.
  destruct (negb (block_mode m (index (path m)))).
  - rewrite bind_ret_state. apply execute_extends.
    intros f Hf r. destruct (negb (not_write m)); [|done].
    injection Hf as <-. apply write_callback_extends.
  - apply bind_reaches; [by apply execute_extends|]. intros r.
    apply keeps_bind; [|intros _; apply keeps_ret].
    destruct (negb (not_write m)); [|apply keeps_ret].
    apply keeps_bind; [|intros _; apply keeps_ret].
    apply (stable_write_output get_path (extends _)).
    + intros s' e. apply extends_emit.
    + intros s' file cells. apply extends_contents.
Qed.

(** An accepted request without inline code dispatches to its kernel the
    source of the first cell of the notebook that has the requested id,
    before anything else it does. *)
Theorem mimic_post_dispatches_cell_source index get_path m kr s cells c :
  kernel_id m ∈ kernels s →
  is_executing (executing_cell s) (kernel_id m) (index (path m)) (cell_id m) = false →
  truthy (code m) = false →
  truthy (index (path m)) = true → truthy (cell_id m) = true →
  contents s !! get_path (index (path m)) = Some cells →
  find_cell (cell_id m) cells = Some c →
  extends (trace s ++ [Dispatch (kernel_id m) (c_source c)])
          (mimic_post index get_path m kr s).1.
Proof.
  intros Hk Hfree Hcode Hd Hc Hnb Hfind. apply mimic_post_extends; try done.
  rewrite Hcode. unfold read_code_from_ipynb. rewrite Hd, Hc. simpl.
  unfold bind, cm_get. by rewrite Hnb, Hfind.
Qed.

Lemma mimic_post_dispatches_cell_source_holds :
  extends (trace Demo.idle ++ [Dispatch "k1" "print(x)"])
    (mimic_post Demo.index Demo.get_path
       (Model "k1" (Some "nb.ipynb") (Some "c1") false None None)
       (Run [Demo.streamed] (Ok Demo.finished)) Demo.idle).1.
Proof.
  apply (mimic_post_dispatches_cell_source Demo.index Demo.get_path
           (Model "k1" (Some "nb.ipynb") (Some "c1") false None None) _ Demo.idle
           Demo.notebook (Cell "c1" "print(x)" (Some []) None)); reflexivity.
Defined.

(** An accepted request with inline code dispatches that code, not the
    source of the cell it names, before anything else it does. *)
Theorem mimic_post_dispatches_inline_code index get_path m kr s :
  kernel_id m ∈ kernels s →
  is_executing (executing_cell s) (kernel_id m) (index (path m)) (cell_id m) = false →
  truthy (code m) = true →
  extends (trace s ++ [Dispatch (kernel_id m) (default "" (code m))])
          (mimic_post index get_path m kr s).1.
Proof.
  intros Hk Hfree Hcode. apply mimic_post_extends; try done.
  rewrite Hcode. by destruct (code m).
Qed.

Lemma mimic_post_dispatches_inline_code_holds :
  extends (trace Demo.idle ++ [Dispatch "k1" "print(x)"])
    (mimic_post Demo.index Demo.get_path Demo.post_c1
       (Run [Demo.streamed] (Ok Demo.finished)) Demo.idle).1.
Proof.
  apply (mimic_post_dispatches_inline_code Demo.index Demo.get_path Demo.post_c1);
    reflexivity.
Defined.

(** ** The blocking path *)




(** ** Status queries *)

(** A status query never raises for a kernel the kernel manager knows, also
    when the ledger has no entry for it: the answer is then the empty list,
    and the state is as before. *)
Theorem mimic_get_without_entry get_path k s :
  k ∈ kernels s → executing_cell s !! k = None →
  mimic_get get_path k s = (s, Ok (Listing "get" [])).
Proof.
  intros Hk Hnone. unfold mimic_get, get_state, bind.
  rewrite bool_decide_eq_true_2 by done. simpl.
  unfold records_of. by rewrite Hnone.
Qed.

Lemma mimic_get_without_entry_holds :
  mimic_get Demo.get_path "k1" Demo.idle = (Demo.idle, Ok (Listing "get" [])).
Proof. apply mimic_get_without_entry; reflexivity. Defined.

(** While a cell executes, a status query shows what the kernel has streamed
    so far: after [pre_execute] and a partial update, the answer for the
    kernel holds an entry with the path of the document, the cell id, no
    execution count and the joined text of the outputs. *)
Theorem mimic_get_reports_streamed_output get_path k d cid r s :
  k ∈ kernels s → truthy d = true → truthy cid = true →
  let s1 := (pre_execute k d cid s).1 in
  let s2 := (update_execute_result r k cid false s1).1 in
  ∃ entries,
    mimic_get get_path k s2 = (s2, Ok (Listing "get" entries)) ∧
    Status (get_path d) cid None (join_text (outputs r)) ∈ entries.
Proof.
  intros Hk Hd Hc. simpl. unfold pre_execute. rewrite Hd, Hc. simpl.
  unfold update_execute_result. simpl. rewrite lookup_insert_eq. simpl.
  unfold mimic_get, get_state, bind. simpl.
  rewrite bool_decide_eq_true_2 by done. simpl.
  eexists. split; [done|].
  rewrite records_of_insert.
  apply list_elem_of_fmap.
  exists (Rec d cid (join_text (outputs r)) None). split; [done|].
  apply list_elem_of_fmap. exists (get_record d cid). split.
  - unfold update_record. by rewrite decide_True.
  - apply elem_of_app. right. by apply list_elem_of_singleton.
Qed.

Lemma mimic_get_reports_streamed_output_holds :
  let s1 := (pre_execute "k1" (Some "doc-1") (Some "c1") Demo.idle).1 in
  let s2 := (update_execute_result Demo.streamed "k1" (Some "c1") false s1).1 in
  ∃ entries,
    mimic_get Demo.get_path "k1" s2 = (s2, Ok (Listing "get" entries)) ∧
    Status "nb.ipynb" (Some "c1") None "1" ∈ entries.
Proof.
  apply (mimic_get_reports_streamed_output Demo.get_path "k1" (Some "doc-1")
           (Some "c1") Demo.streamed Demo.idle); reflexivity.
Defined.

(** [executing_document] holds a document id exactly when some record of
    some kernel is for that document. *)
Theorem executing_document_elem cells d :
  d ∈ executing_document cells ↔
  ∃ k rec, rec ∈ records_of cells k ∧ rec_document_id rec = d.
Proof.
  unfold executing_document. rewrite list_elem_of_bind. split.
  - intros ([k recs] & Hd & Hin). simpl in Hd.
    apply list_elem_of_fmap in Hd as (rec & -> & Hrec).
    apply elem_of_map_to_list in Hin.
    exists k, rec. split; [|done]. unfold records_of. by rewrite Hin.
  - intros (k & rec & Hrec & <-). unfold records_of in Hrec.
    destruct (cells !! k) as [recs|] eqn:Hk; simpl in Hrec.
    + exists (k, recs). split.
      * simpl. by apply list_elem_of_fmap_2.
      * by apply elem_of_map_to_list.
    + by apply elem_of_nil in Hrec.
Qed.

(** ** The route *)

Lemma rstrip_snoc c s : rstrip c (s ++ String c "") = rstrip c s.
Proof.
  induction s as [|a s IH]; simpl.
  - by rewrite decide_True.
  - by rewrite IH.
Qed.

Lemma rstrip_no_trailing c s t : rstrip c s ≠ t ++ String c "".
Proof.
  revert t. induction s as [|a s IH]; intros t; simpl.
  - by destruct t.
  - destruct (rstrip c s) as [|b u] eqn:Hs.
    + destruct (decide (a = c)) as [->|Hne]; [by destruct t|].
      destruct t as [|x [|y t]]; intros Heq;
        cbv [String.append] in Heq; by simplify_eq.
    + destruct t as [|x t]; intros Heq; cbv [String.append] in Heq;
        fold String.append in Heq; [by simplify_eq|].
      injection Heq as -> Hrest. by apply (IH t).
Qed.

(** The route does not depend on trailing slashes of the base URL. *)
Theorem execute_websocket_route_trailing_slash base_url :
  execute_websocket_route (base_url ++ "/") = execute_websocket_route base_url.
Proof. unfold execute_websocket_route. by rewrite rstrip_snoc. Qed.

(** The part of the route taken from the base URL never ends with a slash,
    so the route joins it to [/api/kernels/] with exactly one slash. *)
Theorem execute_websocket_route_single_slash base_url :
  ∃ base,
    execute_websocket_route base_url =
      base ++ "/api/kernels/(?P<kernel_id>\w+-\w+-\w+-\w+-\w+)/execute_websocket" ∧
    ∀ t, base ≠ t ++ "/".
Proof.
  exists (rstrip "/" base_url). split; [done|].
  intros t. apply rstrip_no_trailing.
Qed.

(** ** Requests and cleanups that find nothing *)

(** [post_execute] for a cell that is not reported as executing never raises
    and leaves the ledger as it was. *)
Theorem post_execute_without_record k d cid s :
  is_executing (executing_cell s) k d cid = false →
  (post_execute k d cid s).2 = Ok tt ∧
  executing_cell (post_execute k d cid s).1 = executing_cell s.
Proof.
  intros Hfree. unfold post_execute.
  destruct (truthy d && truthy cid); [|done].
  unfold bind, watcher_remove, modify. simpl.
  unfold is_executing in Hfree. by rewrite Hfree.
Qed.

Lemma post_execute_without_record_holds :
  (post_execute "k1" (Some "doc-1") (Some "c1") Demo.idle).2 = Ok tt ∧
  executing_cell (post_execute "k1" (Some "doc-1") (Some "c1") Demo.idle).1 =
    executing_cell Demo.idle.
Proof. apply post_execute_without_record. reflexivity. Defined.

(** A post request for a kernel the kernel manager does not know is refused
    with 404 before anything else: nothing is registered, read, dispatched
    or written. *)
Theorem mimic_post_unknown_kernel index get_path m kr s :
  kernel_id m ∉ kernels s →
  mimic_post index get_path m kr s =
    (s, Raise (HTTPError 404 ("No such kernel " ++ kernel_id m))).
Proof.
  intros Hk. unfold mimic_post, get_state, bind.
  by rewrite bool_decide_eq_false_2 by done.
Qed.

Lemma mimic_post_unknown_kernel_holds :
  mimic_post Demo.index Demo.get_path
    (Model "k9" (Some "nb.ipynb") (Some "c1") false None (Some "print(x)"))
    (Run [Demo.streamed] (Ok Demo.finished)) Demo.idle =
  (Demo.idle, Raise (HTTPError 404 "No such kernel k9")).
Proof.
  apply (mimic_post_unknown_kernel Demo.index Demo.get_path
           (Model "k9" (Some "nb.ipynb") (Some "c1") false None (Some "print(x)"))).
  apply (bool_decide_unpack _). vm_compute. exact I.
Defined.

(** ** Updates across documents, callbacks and failures *)

(** An update is addressed by kernel and cell id only: every record of the
    kernel with that cell id receives the output, whatever its document. *)
Theorem update_execute_result_reaches_every_document r k cid (fin : bool) s recs rec :
  executing_cell s !! k = Some recs →
  rec ∈ recs → rec_cell_id rec = cid →
  Rec (rec_document_id rec) cid (join_text (outputs r))
      (if fin then execution_count r else None)
    ∈ records_of (executing_cell (update_execute_result r k cid fin s).1) k.
Proof.
  intros Hk Hin Hcid. unfold update_execute_result. rewrite Hk. simpl.
  rewrite records_of_insert. apply list_elem_of_fmap. exists rec.
  split; [|done]. unfold update_record. rewrite decide_True by done.
  by rewrite Hcid.
Qed.

Lemma update_execute_result_reaches_every_document_holds :
  let s := State {["k1" := [get_record (Some "doc-1") (Some "c1");
                            get_record (Some "doc-2") (Some "c1")]]}
             {["k1"]} ∅ true [] in
  Rec (Some "doc-2") (Some "c1") "1" None
    ∈ records_of (executing_cell
                    (update_execute_result Demo.streamed "k1" (Some "c1") false s).1) "k1".
Proof.
  intros s.
  apply (update_execute_result_reaches_every_document Demo.streamed "k1" (Some "c1")
           false s [get_record (Some "doc-1") (Some "c1");
                    get_record (Some "doc-2") (Some "c1")]
           (get_record (Some "doc-2") (Some "c1"))).
  - vm_compute. reflexivity.
  - apply elem_of_cons. right. by apply list_elem_of_singleton.
  - reflexivity.
Defined.

(* The handler of the callback's [try] does not raise. *)
Lemma write_callback_ok get_path k d cid r s :
  (write_callback get_path k d cid r s).2 = Ok tt.
Proof.
  unfold write_callback, try_except.
  by destruct (bind _ _ s) as [s' [[]|e]].
Qed.

Lemma run_callbacks_ok cb snapshots s :
  (∀ r s', (cb r s').2 = Ok tt) → (run_callbacks cb snapshots s).2 = Ok tt.
Proof.
  intros Hcb. revert s. induction snapshots as [|r snapshots IH]; intros s; [done|].
  simpl. unfold bind. specialize (Hcb r s).
  destruct (cb r s) as [s' [[]|e]]; simpl in *; [apply IH|done].
Qed.

Lemma post_execute_ok k d cid s : (post_execute k d cid s).2 = Ok tt.
Proof. unfold post_execute. by destruct (truthy d && truthy cid). Qed.

(** With callbacks that do not raise, an execution raises what
    [client.execute] raises. *)
Lemma execute_raises cb snapshots e k src d cid s :
  (∀ f, cb = Some f → ∀ r s', (f r s').2 = Ok tt) →
  (execute cb (Run snapshots (Raise e)) k src d cid s).2 = Raise e.
Proof.
  intros Hcb. rewrite execute_from_dispatch. simpl.
  generalize (emit (Dispatch k src) (pre_execute k d cid s).1). intros s0.
  destruct cb as [f|].
  - pose proof (run_callbacks_ok f snapshots s0 (Hcb f eq_refl)) as Hcbs.
    unfold bind, try_finally.
    destruct (run_callbacks f snapshots s0) as [s1 [[]|e1]]; simpl in *; [|done].
    pose proof (post_execute_ok k d cid s1) as Hpost.
    destruct (post_execute k d cid s1) as [s2 [[]|e2]]; simpl in *; done.
  - unfold bind, try_finally, ret.
    pose proof (post_execute_ok k d cid s0) as Hpost.
    destruct (post_execute k d cid s0) as [s2 [[]|e2]]; simpl in *; done.
Qed.

(** When [client.execute] raises for an accepted request with inline code,
    the request fails with that exception, in either mode. *)
Theorem mimic_post_kernel_failure index get_path m snapshots e s :
  kernel_id m ∈ kernels s →
  is_executing (executing_cell s) (kernel_id m) (index (path m)) (cell_id m) = false →
  truthy (code m) = true →
  (mimic_post index get_path m (Run snapshots (Raise e)) s).2 = Raise e.
Proof.
  intros Hk Hfree Hcode. unfold mimic_post. unfold bind at 1. unfold get_state.
  rewrite bool_decide_eq_true_2 by done. simpl. rewrite Hfree, Hcode.
  destruct (code m) as [src|]; [|done].
  unfold bind at 1. unfold ret at 1.
  destruct (negb (block_mode m (index (path m)))).
  - assert (∀ f, (if negb (not_write m)
                  then Some (write_callback get_path (kernel_id m)
                               (index (path m)) (cell_id m))
                  else None) = Some f →
                 ∀ r s', (f r s').2 = Ok tt) as Hquiet.
    { intros f Hf r' s'. destruct (negb (not_write m)); [|done].
      injection Hf as <-. apply write_callback_ok. }
    pose proof (execute_raises _ snapshots e (kernel_id m) src
                  (index (path m)) (cell_id m) s Hquiet) as Hex.
    unfold bind at 1.
    destruct (execute _ _ _ _ _ _ s) as [s1 [r|e1]]; simpl in *; congruence.
  - assert ((execute None (Run snapshots (Raise e)) (kernel_id m) src
               (index (path m)) (cell_id m) s).2 = Raise e) as Hex
      by (apply execute_raises; intros f Hf; discriminate Hf).
    unfold bind at 1.
    destruct (execute None _ _ _ _ _ s) as [s1 [r|e1]]; simpl in *; congruence.
Qed.

Lemma mimic_post_kernel_failure_holds :
  (mimic_post Demo.index Demo.get_path Demo.post_c1
     (Run [Demo.streamed] (Raise (KernelFailure "interrupted"))) Demo.idle).2 =
  Raise (KernelFailure "interrupted").
Proof. apply mimic_post_kernel_failure; reflexivity. Defined.

(** ** Writes that fail in asynchronous mode *)

Lemma block_mode_false_ids m d :
  block_mode m d = false → truthy d = true ∧ truthy (cell_id m) = true.
Proof.
  rewrite block_mode_cases.
  destruct (block m) as [[|]|]; [done| |]; by destruct (truthy d), (truthy (cell_id m)).
Qed.

(** One call of the callback when the notebook cannot be read: the ledger
    is updated, the 404 of the contents manager is caught and logged. *)
Lemma write_callback_missing_notebook get_path k d cid p s :
  truthy d = true → truthy cid = true →
  is_Some (executing_cell s !! k) →
  contents s !! get_path d = None →
  ∃ recs,
    write_callback get_path k d cid p s =
    (emit (LogException
             (HTTPError 404 ("No such file or directory: " ++ get_path d)))
       (set_executing_cell (insert k recs) s), Ok tt).
Proof.
  intros Hd Hc [recs Hentry] Hnb.
  exists (update_record p cid false <$> recs).
  unfold write_callback, try_except. unfold bind at 1.
  unfold update_execute_result. rewrite Hentry.
  unfold bind at 1. rewrite write_output_run, Hd, Hc. simpl. by rewrite Hnb.
Qed.

Lemma run_callbacks_missing_notebook get_path k d cid snapshots s :
  truthy d = true → truthy cid = true →
  is_Some (executing_cell s !! k) →
  contents s !! get_path d = None →
  let failure := HTTPError 404 ("No such file or directory: " ++ get_path d) in
  ∃ s',
    run_callbacks (write_callback get_path k d cid) snapshots s = (s', Ok tt) ∧
    is_Some (executing_cell s' !! k) ∧
    contents s' = contents s ∧
    trace s' = (trace s ++ ((λ _, LogException failure) <$> snapshots))%list.
Proof.
  intros Hd Hc. simpl. revert s.
  induction snapshots as [|p snapshots IH]; intros s Hentry Hnb.
  - exists s. simpl. by rewrite app_nil_r.
  - destruct (write_callback_missing_notebook get_path k d cid p s Hd Hc Hentry Hnb)
      as (recs & Hcb).
    cbn [run_callbacks]. unfold bind at 1. rewrite Hcb.
    destruct (IH (emit (LogException
                          (HTTPError 404 ("No such file or directory: " ++ get_path d)))
                    (set_executing_cell (insert k recs) s)))
      as (s' & Hrun & Hentry' & Hcontents & Htrace).
    + simpl. rewrite lookup_insert_eq. by eexists.
    + done.
    + exists s'. repeat split; try done.
      rewrite Htrace. simpl. by rewrite <- app_assoc.
Qed.

(** In asynchronous mode a notebook that cannot be read does not fail the
    request.  For an accepted request with inline code whose notebook the
    contents manager does not hold, and a kernel run that returns: the code
    is dispatched, every streamed result the client reports ends in the 404
    of the contents manager, which the callback catches and logs, once per
    result and nothing else; no notebook is written, the watcher is left, and
    the response is [post]. *)
Theorem mimic_post_logs_failed_writes index get_path m kr s r :
  kernel_id m ∈ kernels s →
  is_executing (executing_cell s) (kernel_id m) (index (path m)) (cell_id m) = false →
  block_mode m (index (path m)) = false →
  not_write m = false →
  truthy (code m) = true →
  contents s !! get_path (index (path m)) = None →
  final kr = Ok r →
  let out := mimic_post index get_path m kr s in
  let failure :=
    HTTPError 404 ("No such file or directory: " ++ get_path (index (path m))) in
  out.2 = Ok (Response "post" [("model", VModel m)]) ∧
  trace out.1 =
    (trace s ++ Dispatch (kernel_id m) (default "" (code m))
             :: ((λ _, LogException failure) <$> partials kr))%list ∧
  contents out.1 = contents s ∧
  watching out.1 = false.
Proof.
  intros Hk Hfree Hmode Hnw Hcode Hnb Hfinal. simpl.
  destruct (block_mode_false_ids _ _ Hmode) as [Hd Hc].
  destruct (code m) as [src|] eqn:Hsrc; [|done]. simpl.
  destruct (mimic_post index get_path m kr s) as [sf rf] eqn:Hrun.
  rewrite mimic_post_stretches in Hrun.
  unfold check_request, fetch_code, answer_request in Hrun.
  unfold bind at 1 in Hrun. unfold bind at 1 in Hrun. unfold get_state in Hrun.
  rewrite bool_decide_eq_true_2 in Hrun by done. simpl in Hrun.
  rewrite Hfree in Hrun. unfold ret at 1 in Hrun.
  rewrite Hsrc, Hcode, Hmode, Hnw in Hrun. simpl in Hrun.
  unfold bind at 1 in Hrun. unfold bind at 1 in Hrun. unfold ret at 1 2 in Hrun.
  unfold bind at 1 in Hrun. rewrite execute_from_begin in Hrun.
  set (s0 := (begin_execute (kernel_id m) src (index (path m)) (cell_id m) s).1) in Hrun.
  assert (is_Some (executing_cell s0 !! kernel_id m) ∧ contents s0 = contents s ∧
          trace s0 = (trace s ++ [Dispatch (kernel_id m) src])%list) as (He0 & Hc0 & Ht0).
  { unfold s0, begin_execute, pre_execute. rewrite Hd, Hc. simpl.
    rewrite lookup_insert_eq. split; [by eexists|done]. }
  destruct (run_callbacks_missing_notebook get_path (kernel_id m) (index (path m))
              (cell_id m) (partials kr) s0 Hd Hc He0) as (s1 & Hcbs & He1 & Hc1 & Ht1).
  { by rewrite Hc0. }
  unfold bind at 1 in Hrun. unfold try_finally in Hrun.
  unfold bind at 1 in Hrun. rewrite Hcbs, Hfinal in Hrun.
  unfold post_execute in Hrun. rewrite Hd, Hc in Hrun. simpl in Hrun.
  unfold bind at 1 in Hrun. unfold watcher_remove, modify in Hrun. simpl in Hrun.
  unfold update_execute_result in Hrun. simpl in Hrun.
  destruct He1 as [recs1 He1].
  assert (∃ recs2, (if bool_decide (get_record (index (path m)) (cell_id m)
                                      ∈ records_of (executing_cell s1) (kernel_id m))
                    then <[kernel_id m := remove_first
                             (get_record (index (path m)) (cell_id m))
                             (records_of (executing_cell s1) (kernel_id m))]>
                           (executing_cell s1)
                    else executing_cell s1) !! kernel_id m = Some recs2) as [recs2 He2].
  { destruct (bool_decide _); [|by eexists].
    rewrite lookup_insert_eq. by eexists. }
  rewrite He2 in Hrun. simpl in Hrun. injection Hrun as <- <-. simpl.
  rewrite Ht1, Ht0, Hc1, Hc0. repeat split; try done.
  by rewrite <- app_assoc.
Qed.

Lemma mimic_post_logs_failed_writes_holds :
  let s := State ∅ {["k1"]} ∅ false [] in
  let out := mimic_post Demo.index Demo.get_path Demo.post_c1
               (Run [Demo.streamed; Demo.streamed] (Ok Demo.finished)) s in
  let failure := HTTPError 404 "No such file or directory: nb.ipynb" in
  out.2 = Ok (Response "post" [("model", VModel Demo.post_c1)]) ∧
  trace out.1 =
    [Dispatch "k1" "print(x)"; LogException failure; LogException failure] ∧
  contents out.1 = ∅ ∧
  watching out.1 = false.
Proof.
  apply (mimic_post_logs_failed_writes Demo.index Demo.get_path Demo.post_c1
           (Run [Demo.streamed; Demo.streamed] (Ok Demo.finished))
           (State ∅ {["k1"]} ∅ false []) Demo.finished);
    reflexivity.
Defined.

(** ** Inline code without a document *)

Lemma falsy_ids d cid :
  truthy d && truthy cid = false → negb (truthy d) || negb (truthy cid) = true.
Proof. by destruct (truthy d), (truthy cid). Qed.

(** What [execute] does without a callback when the document id or the
    cell id is missing: nothing is registered, the code is dispatched, and
    the final update looks the kernel up in the ledger. *)
Lemma execute_without_ids kr k src d cid s :
  truthy d && truthy cid = false →
  execute None kr k src d cid s =
  match final kr with
  | Ok r =>
      match executing_cell s !! k with
      | Some recs =>
          (set_executing_cell (insert k (update_record r cid true <$> recs))
             (emit (Dispatch k src) s), Ok r)
      | None => (emit (Dispatch k src) s, Raise (KeyError k))
      end
  | Raise e => (emit (Dispatch k src) s, Raise e)
  end.
Proof.
  intros Hids. rewrite execute_from_dispatch.
  unfold pre_execute, post_execute. rewrite Hids.
  unfold bind, try_finally, ret. simpl.
  destruct (final kr) as [r|e]; [|done].
  unfold update_execute_result. simpl.
  by destruct (executing_cell s !! k).
Qed.

(** A request with inline code but without a document id or a cell id, on a
    known kernel that has a ledger entry, runs in blocking mode whatever its
    [block] flag says: the code is dispatched, nothing is written to any
    notebook, and the response is [post_block] with an empty payload. *)
Theorem mimic_post_inline_blocking index get_path m kr s r recs :
  kernel_id m ∈ kernels s →
  ledger_wf (executing_cell s) →
  truthy (index (path m)) && truthy (cell_id m) = false →
  truthy (code m) = true →
  final kr = Ok r →
  executing_cell s !! kernel_id m = Some recs →
  mimic_post index get_path m kr s =
    (set_executing_cell
       (insert (kernel_id m) (update_record r (cell_id m) true <$> recs))
       (emit (Dispatch (kernel_id m) (default "" (code m))) s),
     Ok (Response "post_block" [])).
Proof.
  intros Hk Hwf Hids Hcode Hfinal Hentry.
  unfold mimic_post. unfold bind at 1. unfold get_state.
  rewrite bool_decide_eq_true_2 by done. simpl.
  rewrite ledger_wf_not_executing by done.
  assert (block_mode m (index (path m)) = true) as ->.
  { rewrite block_mode_cases, Hids. by destruct (block m) as [[|]|]. }
  rewrite Hcode. destruct (code m) as [src|]; [|done]. simpl.
  unfold bind at 1. unfold ret at 1. unfold bind at 1.
  rewrite execute_without_ids by done. rewrite Hfinal, Hentry.
  unfold bind at 1.
  assert (∀ s', (if negb (not_write m)
                 then let* _ := write_output get_path (index (path m)) (cell_id m) r
                      in ret tt
                 else ret tt) s' = (s', Ok tt)) as ->; [|done].
  intros s'. destruct (negb (not_write m)); [|done].
  unfold bind, write_output. by rewrite falsy_ids.
Qed.

Lemma mimic_post_inline_blocking_holds :
  mimic_post Demo.index Demo.get_path Demo.post_inline
    (Run [] (Ok Demo.finished)) Demo.used =
  (set_executing_cell
     (insert "k1" (update_record Demo.finished None true <$> []))
     (emit (Dispatch "k1" "1+1") Demo.used),
   Ok (Response "post_block" [])).
Proof.
  apply (mimic_post_inline_blocking Demo.index Demo.get_path Demo.post_inline
           (Run [] (Ok Demo.finished)) Demo.used Demo.finished []).
  - reflexivity.
  - intros k recs rec Hk Hin.
    destruct (decide (k = "k1")) as [->|Hne].
    + vm_compute in Hk. injection Hk as <-. by apply elem_of_nil in Hin.
    + unfold Demo.used in Hk. simpl in Hk. by rewrite lookup_singleton_ne in Hk.
  - reflexivity.
  - reflexivity.
  - reflexivity.
  - reflexivity.
Defined.

(** The same request on a kernel that has no ledger entry fails after the
    code ran: the final update raises [KeyError] for the kernel. *)
Theorem mimic_post_inline_without_entry index get_path m kr s r :
  kernel_id m ∈ kernels s →
  ledger_wf (executing_cell s) →
  truthy (index (path m)) && truthy (cell_id m) = false →
  truthy (code m) = true →
  final kr = Ok r →
  executing_cell s !! kernel_id m = None →
  mimic_post index get_path m kr s =
    (emit (Dispatch (kernel_id m) (default "" (code m))) s,
     Raise (KeyError (kernel_id m))).
Proof.
  intros Hk Hwf Hids Hcode Hfinal Hentry.
  unfold mimic_post. unfold bind at 1. unfold get_state.
  rewrite bool_decide_eq_true_2 by done. simpl.
  rewrite ledger_wf_not_executing by done.
  assert (block_mode m (index (path m)) = true) as ->.
  { rewrite block_mode_cases, Hids. by destruct (block m) as [[|]|]. }
  rewrite Hcode. destruct (code m) as [src|]; [|done]. simpl.
  unfold bind at 1. unfold ret at 1. unfold bind at 1.
  rewrite execute_without_ids by done. by rewrite Hfinal, Hentry.
Qed.

Lemma mimic_post_inline_without_entry_holds :
  mimic_post Demo.index Demo.get_path Demo.post_inline
    (Run [] (Ok Demo.finished)) Demo.idle =
  (emit (Dispatch "k1" "1+1") Demo.idle, Raise (KeyError "k1")).
Proof.
  apply (mimic_post_inline_without_entry Demo.index Demo.get_path Demo.post_inline
           (Run [] (Ok Demo.finished)) Demo.idle Demo.finished).
  - reflexivity.
  - apply ledger_wf_empty.
  - reflexivity.
  - reflexivity.
  - reflexivity.
  - reflexivity.
Defined.
